(** * esp32-microcsi: the CSI frame ring buffer and the capture controller

    A shallow embedding of [modwifi_csi.c] / [modwifi_csi.h]:

    - the lock-free circular buffer ([csi_buffer_init], [csi_buffer_deinit],
      [csi_buffer_write], [csi_buffer_read], ...), over [uint32_t] indices
      written as [Z] with the wrap-around spelled out;
    - the control functions ([wifi_csi_init], [wifi_csi_deinit],
      [wifi_csi_enable], [wifi_csi_disable], [wifi_csi_config],
      [wifi_csi_read_frame]) acting on the global [g_csi_state], with the
      ESP-IDF driver and the C heap as an explicit environment whose calls are
      recorded in a trace.

    Logging ([ESP_LOGx]) has no effect on the state and is left out. *)

From Stdlib Require Import ZArith Lia.
From stdpp Require Import base list.

Open Scope Z_scope.

(** ** Machine integers *)

Definition UINT32_MAX : Z := 4294967295.

(** Arithmetic on [uint32_t] (and on the 32-bit [size_t] of the ESP32 family)
    is arithmetic modulo [2^32]. *)
Definition uint32 (z : Z) : Z := z mod 2 ^ 32.

(** ** Frames ([modwifi_csi.h]) *)

Definition CSI_MAX_DATA_LEN : Z := 128.
Definition CSI_DEFAULT_BUFFER_SIZE : Z := 128.

(** [csi_frame_t]: only scalars and fixed arrays, so a frame is a plain value
    and [memcpy] of [sizeof (csi_frame_t)] bytes is a copy of that value. *)
Record csi_frame_t := mk_frame {
  rssi : Z;
  rate : Z;
  mac : list Z;
  timestamp_us : Z;
  data : list Z;
  len : Z;
  sig_mode : Z;
  mcs : Z;
  cwb : Z;
  smoothing : Z;
  not_sounding : Z;
  aggregation : Z;
  stbc : Z;
  fec_coding : Z;
  sgi : Z;
  noise_floor : Z;
  ampdu_cnt : Z;
  channel : Z;
  secondary_channel : Z;
  local_timestamp : Z;
  ant : Z;
  sig_len : Z;
  rx_state : Z
}.

(** [sizeof (csi_frame_t)] with the natural alignment of the 32-bit targets:
    8 bytes up to [mac], 4 for [timestamp_us], 128 of [data], 2 for [len],
    nine [uint8_t] flags and [noise_floor] (offset 152), then
    [ampdu_cnt], the two channels, [local_timestamp] (offset 156), [ant],
    [sig_len] and [rx_state] (offset 164). *)
Definition sizeof_csi_frame_t : Z := 168.

(** ** The circular buffer record *)

(** [frames] is the pointer to the frame array: [None] is [NULL], [Some fs]
    is a live block holding the slots [fs]. *)
Record csi_buffer_t := mk_buffer {
  frames : option (list csi_frame_t);
  head : Z;
  tail : Z;
  size : Z;
  dropped : Z;
  initialized : bool
}.

(** ** The environment: heap and Wi-Fi driver *)

(** The three families of [CONFIG_IDF_TARGET_*] the source distinguishes. *)
Inductive idf_target := TARGET_LEGACY | TARGET_ESP32C5 | TARGET_ESP32C6.

(** The driver-level [wifi_csi_config_t] handed to
    [esp_wifi_set_csi_config]: the legacy layout (ESP32, S2, S3, C3) and the
    acquire layout of the C5/C6 ([he_stbc] is absent on the C5). *)
Inductive wifi_csi_config_t :=
  | csi_config_legacy
      (c_lltf_en c_htltf_en c_stbc_htltf2_en c_ltf_merge_en
       c_channel_filter_en c_manu_scale : bool) (c_shift : Z)
      (c_dump_ack_en : bool)
  | csi_config_acquire
      (c_enable c_legacy c_ht20 c_ht40 c_su c_mu c_dcm c_beamformed : Z)
      (c_he_stbc : option Z) (c_val_scale_cfg c_dump_ack_en : Z).

(** One entry per call that leaves the module. *)
Inductive call :=
  | Esp_wifi_set_protocol (with_11ax : bool)
  | Esp_wifi_set_bandwidth_ht20
  | Esp_wifi_set_promiscuous (en : bool)
  | Esp_wifi_set_csi_config (c : wifi_csi_config_t)
  | Esp_wifi_set_csi_rx_cb
  | Esp_wifi_set_csi (en : bool)
  | Malloc (nbytes : Z)
  | Free.

Definition esp_err_t := Z.
Definition ESP_OK : esp_err_t := 0.
Definition ESP_ERR_NO_MEM : esp_err_t := 257.       (* 0x101, esp_err.h *)
Definition ESP_ERR_INVALID_ARG : esp_err_t := 258.  (* 0x102, esp_err.h *)

(** What the world answers.  Both answers may depend on everything that
    happened before (the trace so far).  [malloc_ret] gives [None] for a
    [NULL] result and otherwise the (arbitrary) contents of the fresh block. *)
Record platform := mk_platform {
  target : idf_target;
  driver_ret : list call -> call -> esp_err_t;
  malloc_ret : list call -> Z -> option (nat -> csi_frame_t)
}.

(** The slots of a fresh block of [nbytes] bytes. *)
Definition fresh_block (junk : nat -> csi_frame_t) (nbytes : Z)
  : list csi_frame_t :=
  junk <$> seq 0 (Z.to_nat (nbytes / sizeof_csi_frame_t)).

(** ** Slot access *)

(** [&buf->frames[i]] is only defined inside the block. *)
Definition slot_get (fs : list csi_frame_t) (i : Z) : option csi_frame_t :=
  if (0 <=? i) && (i <? Z.of_nat (length fs)) then fs !! Z.to_nat i else None.

Definition slot_set (fs : list csi_frame_t) (i : Z) (f : csi_frame_t)
  : option (list csi_frame_t) :=
  if (0 <=? i) && (i <? Z.of_nat (length fs)) then Some (<[Z.to_nat i := f]> fs)
  else None.

(** ** Circular buffer implementation (lock-free) *)

(** The first lines of [csi_buffer_init]: an initialized buffer with a
    non-[NULL] block has it freed. *)
Definition release_old (buf : csi_buffer_t) (tr : list call) : list call :=
  if initialized buf then
    match frames buf with Some _ => tr ++ [Free] | None => tr end
  else tr.

(** [csi_buffer_init]: frees the old block of an initialized buffer, then
    allocates [sizeof (csi_frame_t) * size] bytes.  On a [NULL] result only
    [frames] has been assigned. *)
Definition csi_buffer_init (p : platform) (buf : csi_buffer_t) (sz : Z)
    (tr : list call) : bool * csi_buffer_t * list call :=
  let tr1 := release_old buf tr in
  let nbytes := uint32 (sizeof_csi_frame_t * sz) in
  match malloc_ret p tr1 nbytes with
  | None =>
      (false,
       {| frames := None; head := head buf; tail := tail buf; size := size buf;
          dropped := dropped buf; initialized := initialized buf |},
       tr1 ++ [Malloc nbytes])
  | Some junk =>
      (true,
       {| frames := Some (fresh_block junk nbytes); head := 0; tail := 0;
          size := sz; dropped := 0; initialized := true |},
       tr1 ++ [Malloc nbytes])
  end.

Definition csi_buffer_deinit (buf : csi_buffer_t) (tr : list call)
  : csi_buffer_t * list call :=
  match initialized buf, frames buf with
  | true, Some _ =>
      ({| frames := None; head := head buf; tail := tail buf; size := size buf;
          dropped := dropped buf; initialized := false |},
       tr ++ [Free])
  | _, _ => (buf, tr)
  end.

Definition csi_buffer_is_empty (buf : csi_buffer_t) : bool :=
  head buf =? tail buf.

(** [csi_buffer_is_full], as the first revision of [modwifi_csi.c] has it
    (the later one inlines the test in [csi_buffer_write]).  Here and below
    the result [None] stands for undefined behaviour: a remainder by zero or
    an access outside the block (or through [NULL]). *)
Definition csi_buffer_is_full (buf : csi_buffer_t) : option bool :=
  if size buf =? 0 then None
  else Some (uint32 (head buf + 1) mod size buf =? tail buf).

(** Called from ISR context. *)
Definition csi_buffer_write (buf : csi_buffer_t) (frame : csi_frame_t)
  : option (bool * csi_buffer_t) :=
  if negb (initialized buf) then Some (false, buf)
  else if size buf =? 0 then None
  else
    let next_head := uint32 (head buf + 1) mod size buf in
    if next_head =? tail buf then
      (* Buffer full, drop frame *)
      Some (false,
            {| frames := frames buf; head := head buf; tail := tail buf;
               size := size buf; dropped := uint32 (dropped buf + 1);
               initialized := initialized buf |})
    else
      match frames buf with
      | None => None
      | Some fs =>
          match slot_set fs (head buf) frame with
          | None => None
          | Some fs' =>
              Some (true,
                    {| frames := Some fs'; head := next_head; tail := tail buf;
                       size := size buf; dropped := dropped buf;
                       initialized := initialized buf |})
          end
      end.

(** Called from Python context.  [frame] is the previous content of the
    destination, returned untouched when nothing is read. *)
Definition csi_buffer_read (buf : csi_buffer_t) (frame : csi_frame_t)
  : option (bool * csi_frame_t * csi_buffer_t) :=
  if negb (initialized buf) || csi_buffer_is_empty buf then
    Some (false, frame, buf)
  else
    match frames buf with
    | None => None
    | Some fs =>
        match slot_get fs (tail buf) with
        | None => None
        | Some f =>
            if size buf =? 0 then None
            else
              Some (true, f,
                    {| frames := frames buf; head := head buf;
                       tail := uint32 (tail buf + 1) mod size buf;
                       size := size buf; dropped := dropped buf;
                       initialized := initialized buf |})
        end
    end.

(** The computation of [wifi.csi.available()] on a buffer. *)
Definition csi_buffer_available (buf : csi_buffer_t) : Z :=
  if negb (initialized buf) then 0
  else if head buf >=? tail buf then uint32 (head buf - tail buf)
  else uint32 (uint32 (size buf - tail buf) + head buf).

(** ** Module state *)

Record csi_config_t := mk_config {
  lltf_en : bool;
  htltf_en : bool;
  stbc_htltf2_en : bool;
  ltf_merge_en : bool;
  channel_filter_en : bool;
  manu_scale : bool;
  shift : Z;
  buffer_size : Z
}.

Record csi_state_t := mk_state {
  buffer : csi_buffer_t;
  config : csi_config_t;
  enabled : bool
}.

(** The static initialiser of [g_csi_state]. *)
Definition g_csi_state_initial : csi_state_t :=
  {| buffer := {| frames := None; head := 0; tail := 0; size := 0;
                  dropped := 0; initialized := false |};
     config := {| lltf_en := true; htltf_en := true; stbc_htltf2_en := true;
                  ltf_merge_en := true; channel_filter_en := true;
                  manu_scale := false; shift := 0;
                  buffer_size := CSI_DEFAULT_BUFFER_SIZE |};
     enabled := false |}.

(** The global [g_csi_state] together with the calls made so far. *)
Record world := mk_world {
  g_csi_state : csi_state_t;
  trace : list call
}.

(** A small state monad over [world] for the control functions. *)
Definition M (A : Type) : Type := world -> A * world.

Definition ret {A} (a : A) : M A := fun w => (a, w).

Definition bind {A B} (m : M A) (k : A -> M B) : M B :=
  fun w => let (a, w') := m w in k a w'.

Notation "x <- m ;; k" := (bind m (fun x => k))
  (at level 100, m at next level, right associativity).
Notation "m ;;; k" := (bind m (fun _ => k))
  (at level 100, right associativity).

Definition get_state : M csi_state_t := fun w => (g_csi_state w, w).

Definition set_enabled (b : bool) : M unit := fun w =>
  (tt, {| g_csi_state := {| buffer := buffer (g_csi_state w);
                            config := config (g_csi_state w);
                            enabled := b |};
          trace := trace w |}).

Definition set_config (c : csi_config_t) : M unit := fun w =>
  (tt, {| g_csi_state := {| buffer := buffer (g_csi_state w);
                            config := c;
                            enabled := enabled (g_csi_state w) |};
          trace := trace w |}).

(** A driver call: the answer is the platform's, the call is recorded. *)
Definition esp_wifi (p : platform) (c : call) : M esp_err_t := fun w =>
  (driver_ret p (trace w) c,
   {| g_csi_state := g_csi_state w; trace := trace w ++ [c] |}).

(** [csi_buffer_init (&g_csi_state.buffer, sz)] *)
Definition g_buffer_init (p : platform) (sz : Z) : M bool := fun w =>
  let '(ok, buf, tr) := csi_buffer_init p (buffer (g_csi_state w)) sz (trace w) in
  (ok, {| g_csi_state := {| buffer := buf; config := config (g_csi_state w);
                            enabled := enabled (g_csi_state w) |};
          trace := tr |}).

(** [csi_buffer_deinit (&g_csi_state.buffer)] *)
Definition g_buffer_deinit : M unit := fun w =>
  let '(buf, tr) := csi_buffer_deinit (buffer (g_csi_state w)) (trace w) in
  (tt, {| g_csi_state := {| buffer := buf; config := config (g_csi_state w);
                            enabled := enabled (g_csi_state w) |};
          trace := tr |}).

Definition esp_ok (r : esp_err_t) : bool := r =? ESP_OK.

(** ** CSI control functions *)

Definition wifi_csi_init (p : platform) : M unit :=
  g <- get_state ;;
  if negb (initialized (buffer g)) then
    _ok <- g_buffer_init p (buffer_size (config g)) ;; ret tt
  else ret tt.

(** The [wifi_csi_config_t] built by [wifi_csi_enable] for each target. *)
Definition csi_config_for (t : idf_target) (c : csi_config_t)
  : wifi_csi_config_t :=
  match t with
  | TARGET_ESP32C6 => csi_config_acquire 1 1 1 0 1 0 0 0 (Some 0) 0 0
  | TARGET_ESP32C5 => csi_config_acquire 1 1 1 0 1 0 0 0 None 0 0
  | TARGET_LEGACY =>
      csi_config_legacy (lltf_en c) (htltf_en c) (stbc_htltf2_en c)
        (ltf_merge_en c) (channel_filter_en c) (manu_scale c) (shift c) false
  end.

Definition target_has_11ax (t : idf_target) : bool :=
  match t with TARGET_LEGACY => false | _ => true end.

(** The second half of [wifi_csi_enable], from "Configure WiFi protocol
    mode" to the end: the driver calls, then the flag. *)
Definition enable_driver_sequence (p : platform) : M esp_err_t :=
  (* protocol and bandwidth: a failure is only logged *)
  _r <- esp_wifi p (Esp_wifi_set_protocol (target_has_11ax (target p))) ;;
  _r <- esp_wifi p Esp_wifi_set_bandwidth_ht20 ;;
  r <- esp_wifi p (Esp_wifi_set_promiscuous false) ;;
  if negb (esp_ok r) then ret r
  else
    g <- get_state ;;
    r <- esp_wifi p (Esp_wifi_set_csi_config
                       (csi_config_for (target p) (config g))) ;;
    if negb (esp_ok r) then ret r
    else
      r <- esp_wifi p Esp_wifi_set_csi_rx_cb ;;
      if negb (esp_ok r) then ret r
      else
        (* Enable CSI LAST *)
        r <- esp_wifi p (Esp_wifi_set_csi true) ;;
        if negb (esp_ok r) then ret r
        else set_enabled true ;;; ret ESP_OK.

Definition wifi_csi_enable (p : platform) : M esp_err_t :=
  g <- get_state ;;
  if enabled g then ret ESP_OK
  else
    (* Ensure buffer is initialized *)
    ok <- (if negb (initialized (buffer g)) then
             g_buffer_init p (buffer_size (config g))
           else ret true) ;;
    if negb ok then ret ESP_ERR_NO_MEM
    else enable_driver_sequence p.

Definition wifi_csi_disable (p : platform) : M esp_err_t :=
  g <- get_state ;;
  if negb (enabled g) then ret ESP_OK
  else
    r <- esp_wifi p (Esp_wifi_set_csi false) ;;
    if negb (esp_ok r) then ret r
    else set_enabled false ;;; ret ESP_OK.

Definition wifi_csi_deinit (p : platform) : M unit :=
  g <- get_state ;;
  (if enabled g then _r <- wifi_csi_disable p ;; ret tt else ret tt) ;;;
  g_buffer_deinit.

(** [config] is the pointer argument: [None] is [NULL]. *)
Definition wifi_csi_config (p : platform) (cfg : option csi_config_t)
  : M esp_err_t :=
  match cfg with
  | None => ret ESP_ERR_INVALID_ARG
  | Some c =>
      (* Update configuration *)
      set_config c ;;;
      g <- get_state ;;
      (* Reinitialize buffer if size changed *)
      if negb (buffer_size c =? size (buffer g)) then
        let was_enabled := enabled g in
        (if was_enabled then _r <- wifi_csi_disable p ;; ret tt else ret tt) ;;;
        g_buffer_deinit ;;;
        ok <- g_buffer_init p (buffer_size c) ;;
        if negb ok then ret ESP_ERR_NO_MEM
        else if was_enabled then wifi_csi_enable p
        else ret ESP_OK
      else if enabled g then
        (* If already enabled, update configuration *)
        wifi_csi_enable p
      else ret ESP_OK
  end.

(** [wifi_csi_read_frame]: [csi_buffer_read] on the global buffer; [None] is
    undefined behaviour as for [csi_buffer_read]. *)
Definition wifi_csi_read_frame (frame : csi_frame_t) (w : world)
  : option (bool * csi_frame_t * world) :=
  match csi_buffer_read (buffer (g_csi_state w)) frame with
  | None => None
  | Some (ok, f, buf) =>
      Some (ok, f,
            {| g_csi_state := {| buffer := buf; config := config (g_csi_state w);
                                 enabled := enabled (g_csi_state w) |};
               trace := trace w |})
  end.

(** [wifi.csi.dropped()] and [wifi.csi.available()]. *)
Definition wifi_csi_dropped (w : world) : Z := dropped (buffer (g_csi_state w)).

Definition wifi_csi_available (w : world) : Z :=
  csi_buffer_available (buffer (g_csi_state w)).

(** ** Derived notions used in the statements *)

(** The driver calls of a complete enable sequence, in order. *)
Definition enable_calls (p : platform) (c : csi_config_t) : list call :=
  [Esp_wifi_set_protocol (target_has_11ax (target p));
   Esp_wifi_set_bandwidth_ht20;
   Esp_wifi_set_promiscuous false;
   Esp_wifi_set_csi_config (csi_config_for (target p) c);
   Esp_wifi_set_csi_rx_cb;
   Esp_wifi_set_csi true].

(** The calls of that sequence whose failure makes [wifi_csi_enable] return:
    promiscuous mode, driver configuration, callback registration, capture
    start. *)
Definition enable_step (c : call) : bool :=
  match c with
  | Esp_wifi_set_promiscuous false
  | Esp_wifi_set_csi_config _
  | Esp_wifi_set_csi_rx_cb
  | Esp_wifi_set_csi true => true
  | _ => false
  end.

(** The answers the driver gives to the calls [cs] made after [pre]. *)
Fixpoint answers (p : platform) (pre cs : list call) : list esp_err_t :=
  match cs with
  | [] => []
  | c :: cs' => driver_ret p pre c :: answers p (pre ++ [c]) cs'
  end.

(** The configuration calls among [cs] all carry the record built from [c]. *)
Definition config_calls_from (p : platform) (c : csi_config_t)
    (cs : list call) : Prop :=
  forall x, In (Esp_wifi_set_csi_config x) cs -> x = csi_config_for (target p) c.

(** From [w] to [w'] the stored configuration is kept and the trace only
    grows, by calls that hand the driver nothing but that configuration. *)
Definition extends_with (p : platform) (w w' : world) : Prop :=
  config (g_csi_state w') = config (g_csi_state w)
  /\ exists ext,
       trace w' = trace w ++ ext
       /\ config_calls_from p (config (g_csi_state w)) ext.

(** The representation invariant of an initialized buffer: a live block of
    exactly [size] slots, [size] at least one, both indices inside the block
    and every counter a [uint32_t]. *)
Definition buffer_ok (b : csi_buffer_t) : bool :=
  initialized b
  && (0 <? size b) && (size b <=? UINT32_MAX)
  && match frames b with
     | Some fs => Z.of_nat (length fs) =? size b
     | None => false
     end
  && (0 <=? head b) && (head b <? size b)
  && (0 <=? tail b) && (tail b <? size b)
  && (0 <=? dropped b) && (dropped b <=? UINT32_MAX).

(** The weaker property that the flag and the storage agree: a buffer marked
    initialized owns a block of [size] slots, with [size] at least one. *)
Definition buffer_consistent (b : csi_buffer_t) : bool :=
  if initialized b then
    match frames b with
    | Some fs => (0 <? size b) && (Z.of_nat (length fs) =? size b)
    | None => false
    end
  else true.

(** [n] consecutive slots starting at index [i], going round the block. *)
Fixpoint slots_from (fs : list csi_frame_t) (sz : Z) (i : Z) (n : nat)
  : list csi_frame_t :=
  match n with
  | O => []
  | S n' =>
      match slot_get fs i with
      | Some f => f :: slots_from fs sz ((i + 1) mod sz) n'
      | None => []
      end
  end.

(** The unread frames, oldest first: the slots from [tail] up to [head]. *)
Definition queued (b : csi_buffer_t) : list csi_frame_t :=
  match frames b with
  | Some fs =>
      slots_from fs (size b) (tail b) (Z.to_nat (csi_buffer_available b))
  | None => []
  end.

(** One [csi_buffer_write] per frame, in order; the results are collected. *)
Fixpoint write_all (b : csi_buffer_t) (fs : list csi_frame_t)
  : option (list bool * csi_buffer_t) :=
  match fs with
  | [] => Some ([], b)
  | f :: fs' =>
      match csi_buffer_write b f with
      | None => None
      | Some (ok, b1) =>
          match write_all b1 fs' with
          | None => None
          | Some (oks, b2) => Some (ok :: oks, b2)
          end
      end
  end.

(** [n] calls of [csi_buffer_read] into the same destination variable; each
    call's result and the destination's content after it are collected. *)
Fixpoint read_n (n : nat) (b : csi_buffer_t) (dst : csi_frame_t)
  : option (list (bool * csi_frame_t) * csi_buffer_t) :=
  match n with
  | O => Some ([], b)
  | S n' =>
      match csi_buffer_read b dst with
      | None => None
      | Some (ok, dst1, b1) =>
          match read_n n' b1 dst1 with
          | None => None
          | Some (rs, b2) => Some ((ok, dst1) :: rs, b2)
          end
      end
  end.

(** ** Concrete data for the examples *)

Definition zero_frame : csi_frame_t :=
  mk_frame 0 0 (replicate 6 0) 0 (replicate (Z.to_nat CSI_MAX_DATA_LEN) 0)
    0 0 0 0 0 0 0 0 0 0 0 0 0 0 0 0 0 0.

(** A frame recognisable by its [rssi] and first data byte. *)
Definition sample_frame (k : Z) : csi_frame_t :=
  mk_frame k 11 (replicate 6 170) 1000
    (<[0%nat := k]> (replicate (Z.to_nat CSI_MAX_DATA_LEN) 0))
    CSI_MAX_DATA_LEN
    1 7 0 1 1 0 0 0 0 (-90) 0 6 0 2000 0 64 0.

Definition buffer_initial : csi_buffer_t := buffer g_csi_state_initial.

(** A platform on which every call succeeds; fresh memory reads as zero. *)
Definition platform_ok : platform :=
  {| target := TARGET_LEGACY;
     driver_ret := fun _ _ => ESP_OK;
     malloc_ret := fun _ _ => Some (fun _ => zero_frame) |}.

(** The heap is exhausted. *)
Definition platform_no_mem : platform :=
  {| target := TARGET_LEGACY;
     driver_ret := fun _ _ => ESP_OK;
     malloc_ret := fun _ _ => None |}.

(** The driver refuses to stop the capture ([ESP_FAIL] is [-1]). *)
Definition platform_stop_fails : platform :=
  {| target := TARGET_LEGACY;
     driver_ret := fun _ c =>
       match c with Esp_wifi_set_csi false => -1 | _ => ESP_OK end;
     malloc_ret := fun _ _ => Some (fun _ => zero_frame) |}.

(** The driver refuses the callback ([ESP_ERR_WIFI_NOT_INIT] is [0x3001]). *)
Definition platform_cb_fails : platform :=
  {| target := TARGET_LEGACY;
     driver_ret := fun _ c =>
       match c with Esp_wifi_set_csi_rx_cb => 12289 | _ => ESP_OK end;
     malloc_ret := fun _ _ => Some (fun _ => zero_frame) |}.

(** A heap with room for one block: the first [malloc] of a history succeeds,
    every later one returns [NULL]. *)
Definition is_malloc (c : call) : bool :=
  match c with Malloc _ => true | _ => false end.

Definition platform_heap_once : platform :=
  {| target := TARGET_LEGACY;
     driver_ret := fun _ _ => ESP_OK;
     malloc_ret := fun h _ =>
       if existsb is_malloc h then None else Some (fun _ => zero_frame) |}.

(** The default options with [lltf_en] and [buffer_size] chosen. *)
Definition sample_config (lltf : bool) (sz : Z) : csi_config_t :=
  mk_config lltf true true true true false 0 sz.

(** An initialized four-slot buffer holding [f1] then [f2], indices at zero. *)
Definition buffer_with2 (f1 f2 : csi_frame_t) : csi_buffer_t :=
  {| frames := Some [f1; f2; zero_frame; zero_frame]; head := 2; tail := 0;
     size := 4; dropped := 0; initialized := true |}.

(** A controller with that buffer and a matching configuration, with the
    flag as given, after the calls of a first successful enable. *)
Definition sample_world (en : bool) : world :=
  {| g_csi_state :=
       {| buffer := buffer_with2 (sample_frame 1) (sample_frame 2);
          config := sample_config true 4;
          enabled := en |};
     trace := Malloc 672 :: enable_calls platform_ok (sample_config true 4) |}.

(** The module right after load. *)
Definition world_initial : world :=
  {| g_csi_state := g_csi_state_initial; trace := [] |}.

(** ** The CSI callback (ISR context) *)

(** What [wifi_csi_rx_cb] reads of the driver's [wifi_csi_info_t]
    (ESP-IDF, [esp_wifi_types.h]): the [rx_ctrl] fields, the source address,
    the payload pointer ([None] is [NULL]) and the payload length, a
    [uint16_t].  Every [rx_ctrl] bit-field is at most as wide as the
    [csi_frame_t] field it is assigned to, so the assignments keep the value.
    On the ESP32-C5/C6 most [rx_ctrl] fields do not exist; the callback does
    not read them there. *)
Record wifi_csi_info_t := mk_info {
  rx_rssi : Z;
  rx_rate : Z;
  rx_sig_mode : Z;
  rx_mcs : Z;
  rx_cwb : Z;
  rx_smoothing : Z;
  rx_not_sounding : Z;
  rx_aggregation : Z;
  rx_stbc : Z;
  rx_fec_coding : Z;
  rx_sgi : Z;
  rx_noise_floor : Z;
  rx_ampdu_cnt : Z;
  rx_channel : Z;
  rx_secondary_channel : Z;
  rx_timestamp : Z;
  rx_ant : Z;
  rx_sig_len : Z;
  rx_rx_state : Z;
  info_mac : list Z;
  info_buf : option (list Z);
  info_len : Z
}.

(** [memcpy (dst, src, n)] on byte arrays: the first [n] bytes of [dst] are
    replaced by those of [src]; reading or writing past either array is
    undefined. *)
Definition memcpy_bytes (dst src : list Z) (n : Z) : option (list Z) :=
  if (0 <=? n) && (n <=? Z.of_nat (length src)) && (n <=? Z.of_nat (length dst))
  then Some (take (Z.to_nat n) src ++ drop (Z.to_nat n) dst)
  else None.

(** The frame [wifi_csi_rx_cb] builds on its stack: zeroed by [memset], then
    filled from [info]; [now] is the value of [esp_timer_get_time ()]. *)
Definition csi_frame_of_info (t : idf_target) (info : wifi_csi_info_t)
    (now : Z) : option csi_frame_t :=
  (* fields that only the full rx_ctrl structure has *)
  let full (v : Z) : Z := if target_has_11ax t then 0 else v in
  let flen :=
    if info_len info >? CSI_MAX_DATA_LEN then CSI_MAX_DATA_LEN
    else info_len info in
  let zeros := replicate (Z.to_nat CSI_MAX_DATA_LEN) 0 in
  match memcpy_bytes (replicate 6 0) (info_mac info) 6 with
  | None => None
  | Some m =>
      match
        match info_buf info with
        | Some src => if flen >? 0 then memcpy_bytes zeros src flen
                      else Some zeros
        | None => Some zeros
        end
      with
      | None => None
      | Some d =>
          Some {| rssi := rx_rssi info;
                  rate := rx_rate info;
                  mac := m;
                  timestamp_us := uint32 now;
                  data := d;
                  len := flen;
                  sig_mode := full (rx_sig_mode info);
                  mcs := full (rx_mcs info);
                  cwb := full (rx_cwb info);
                  smoothing := full (rx_smoothing info);
                  not_sounding := full (rx_not_sounding info);
                  aggregation := full (rx_aggregation info);
                  stbc := full (rx_stbc info);
                  fec_coding := full (rx_fec_coding info);
                  sgi := full (rx_sgi info);
                  noise_floor := rx_noise_floor info;
                  ampdu_cnt := full (rx_ampdu_cnt info);
                  channel := rx_channel info;
                  secondary_channel := full (rx_secondary_channel info);
                  local_timestamp := rx_timestamp info;
                  ant := full (rx_ant info);
                  sig_len := rx_sig_len info;
                  rx_state := rx_rx_state info |}
      end
  end.

(** [wifi_csi_rx_cb (ctx, info)]; [ctx] is not used.  [None] is undefined
    behaviour, as for [csi_buffer_write]. *)
Definition wifi_csi_rx_cb (p : platform) (info : wifi_csi_info_t) (now : Z)
    (w : world) : option world :=
  let g := g_csi_state w in
  if negb (enabled g) || negb (initialized (buffer g)) then Some w
  else
    match csi_frame_of_info (target p) info now with
    | None => None
    | Some frame =>
        (* Write to circular buffer; the result is not looked at *)
        match csi_buffer_write (buffer g) frame with
        | None => None
        | Some (_, buf) =>
            Some {| g_csi_state := {| buffer := buf; config := config g;
                                      enabled := enabled g |};
                    trace := trace w |}
        end
    end.

(** ** MicroPython bindings *)

(** The MicroPython objects the bindings build.  A dictionary is kept in
    insertion order.  [mp_bytearray_by_ref] is the array object made by
    [mp_obj_new_bytearray_by_ref]: its type code, its length and the memory
    it refers to (here the bytes found there when the binding returns). *)
Inductive qstr :=
  | MP_QSTR_rssi | MP_QSTR_rate | MP_QSTR_sig_mode | MP_QSTR_mcs | MP_QSTR_cwb
  | MP_QSTR_smoothing | MP_QSTR_not_sounding | MP_QSTR_aggregation
  | MP_QSTR_stbc | MP_QSTR_fec_coding | MP_QSTR_sgi | MP_QSTR_noise_floor
  | MP_QSTR_ampdu_cnt | MP_QSTR_channel | MP_QSTR_secondary_channel
  | MP_QSTR_timestamp | MP_QSTR_local_timestamp | MP_QSTR_ant
  | MP_QSTR_sig_len | MP_QSTR_mac | MP_QSTR_data.

#[warnings="-register-all"]
Inductive mp_obj :=
  | mp_const_none
  | mp_int (z : Z)
  | mp_bytes (bs : list Z)
  | mp_bytearray_by_ref (typecode : Z) (n : Z) (mem : list Z)
  | mp_dict (entries : list (qstr * mp_obj)).

Definition qstr_eqb (a b : qstr) : bool :=
  match a, b with
  | MP_QSTR_rssi, MP_QSTR_rssi | MP_QSTR_rate, MP_QSTR_rate
  | MP_QSTR_sig_mode, MP_QSTR_sig_mode | MP_QSTR_mcs, MP_QSTR_mcs
  | MP_QSTR_cwb, MP_QSTR_cwb | MP_QSTR_smoothing, MP_QSTR_smoothing
  | MP_QSTR_not_sounding, MP_QSTR_not_sounding
  | MP_QSTR_aggregation, MP_QSTR_aggregation | MP_QSTR_stbc, MP_QSTR_stbc
  | MP_QSTR_fec_coding, MP_QSTR_fec_coding | MP_QSTR_sgi, MP_QSTR_sgi
  | MP_QSTR_noise_floor, MP_QSTR_noise_floor
  | MP_QSTR_ampdu_cnt, MP_QSTR_ampdu_cnt | MP_QSTR_channel, MP_QSTR_channel
  | MP_QSTR_secondary_channel, MP_QSTR_secondary_channel
  | MP_QSTR_timestamp, MP_QSTR_timestamp
  | MP_QSTR_local_timestamp, MP_QSTR_local_timestamp
  | MP_QSTR_ant, MP_QSTR_ant | MP_QSTR_sig_len, MP_QSTR_sig_len
  | MP_QSTR_mac, MP_QSTR_mac | MP_QSTR_data, MP_QSTR_data => true
  | _, _ => false
  end.

(** [mp_int_t] is [int32_t] on the ESP32 port: a wider C value handed to
    [mp_obj_new_int] is converted to it first. *)
Definition int32 (z : Z) : Z := (z + 2 ^ 31) mod 2 ^ 32 - 2 ^ 31.

Definition mp_obj_new_int (v : Z) : mp_obj := mp_int (int32 v).

(** [mp_obj_dict_store] on the entries of a dictionary: an existing key gets
    the new value in place, a new key goes to the end. *)
Fixpoint mp_obj_dict_store (d : list (qstr * mp_obj)) (k : qstr) (v : mp_obj)
  : list (qstr * mp_obj) :=
  match d with
  | [] => [(k, v)]
  | (k', v') :: d' =>
      if qstr_eqb k' k then (k, v) :: d'
      else (k', v') :: mp_obj_dict_store d' k v
  end.

(** Subscription [d[k]] of a dictionary object. *)
Fixpoint dict_get (d : list (qstr * mp_obj)) (k : qstr) : option mp_obj :=
  match d with
  | [] => None
  | (k', v') :: d' => if qstr_eqb k' k then Some v' else dict_get d' k
  end.

(** How a binding ends: with a value, or by raising [OSError (code)]
    ([mp_raise_OSError]) or [ValueError] ([mp_raise_ValueError]). *)
Inductive py_result :=
  | Py_return (v : mp_obj)
  | Py_OSError (code : esp_err_t)
  | Py_ValueError.

(** [wifi.csi.enable ()] *)
Definition wifi_csi_enable_py (p : platform) (w : world) : py_result * world :=
  let (r, w') := wifi_csi_enable p w in
  (if negb (esp_ok r) then Py_OSError r else Py_return mp_const_none, w').

(** [wifi.csi.disable ()] *)
Definition wifi_csi_disable_py (p : platform) (w : world) : py_result * world :=
  let (r, w') := wifi_csi_disable p w in
  (if negb (esp_ok r) then Py_OSError r else Py_return mp_const_none, w').

(** The keyword arguments of [wifi.csi.config] as
    [mp_arg_parse_all] (MicroPython) accepts them: every argument is
    keyword-only and optional, booleans for the flags and integers of
    [mp_int_t] for [shift] and [buffer_size]. *)
Record csi_kwargs := mk_kwargs {
  kw_lltf_en : option bool;
  kw_htltf_en : option bool;
  kw_stbc_htltf2_en : option bool;
  kw_ltf_merge_en : option bool;
  kw_channel_filter_en : option bool;
  kw_manu_scale : option bool;
  kw_shift : option Z;
  kw_buffer_size : option Z
}.

(** The record [wifi_csi_config_obj] hands to [wifi_csi_config]: every field
    comes from the parsed arguments, a missing one from the default of the
    [allowed_args] table; [shift] is masked with [0x0F] and [buffer_size]
    converted to [uint32_t]. *)
Definition config_of_kwargs (kw : csi_kwargs) : csi_config_t :=
  {| lltf_en := default true (kw_lltf_en kw);
     htltf_en := default true (kw_htltf_en kw);
     stbc_htltf2_en := default true (kw_stbc_htltf2_en kw);
     ltf_merge_en := default true (kw_ltf_merge_en kw);
     channel_filter_en := default true (kw_channel_filter_en kw);
     manu_scale := default false (kw_manu_scale kw);
     shift := Z.land (default 0 (kw_shift kw)) 15;
     buffer_size := uint32 (default CSI_DEFAULT_BUFFER_SIZE (kw_buffer_size kw)) |}.

(** [wifi.csi.config] with keyword arguments *)
Definition wifi_csi_config_obj (p : platform) (kw : csi_kwargs) (w : world)
  : py_result * world :=
  let c := config_of_kwargs kw in
  if (buffer_size c <? 1) || (buffer_size c >? 1024) then (Py_ValueError, w)
  else
    let (r, w') := wifi_csi_config p (Some c) w in
    (if negb (esp_ok r) then Py_OSError r else Py_return mp_const_none, w').

(** The dictionary [wifi.csi.read ()] builds from a frame. *)
Definition dict_of_frame (frame : csi_frame_t) : list (qstr * mp_obj) :=
  let st d kv := mp_obj_dict_store d (fst kv) (snd kv) in
  foldl st []
    [(MP_QSTR_rssi, mp_obj_new_int (rssi frame));
     (MP_QSTR_rate, mp_obj_new_int (rate frame));
     (MP_QSTR_sig_mode, mp_obj_new_int (sig_mode frame));
     (MP_QSTR_mcs, mp_obj_new_int (mcs frame));
     (MP_QSTR_cwb, mp_obj_new_int (cwb frame));
     (MP_QSTR_smoothing, mp_obj_new_int (smoothing frame));
     (MP_QSTR_not_sounding, mp_obj_new_int (not_sounding frame));
     (MP_QSTR_aggregation, mp_obj_new_int (aggregation frame));
     (MP_QSTR_stbc, mp_obj_new_int (stbc frame));
     (MP_QSTR_fec_coding, mp_obj_new_int (fec_coding frame));
     (MP_QSTR_sgi, mp_obj_new_int (sgi frame));
     (MP_QSTR_noise_floor, mp_obj_new_int (noise_floor frame));
     (MP_QSTR_ampdu_cnt, mp_obj_new_int (ampdu_cnt frame));
     (MP_QSTR_channel, mp_obj_new_int (channel frame));
     (MP_QSTR_secondary_channel, mp_obj_new_int (secondary_channel frame));
     (MP_QSTR_timestamp, mp_obj_new_int (timestamp_us frame));
     (MP_QSTR_local_timestamp, mp_obj_new_int (local_timestamp frame));
     (MP_QSTR_ant, mp_obj_new_int (ant frame));
     (MP_QSTR_sig_len, mp_obj_new_int (sig_len frame));
     (* MAC address as bytes *)
     (MP_QSTR_mac, mp_bytes (take 6 (mac frame)));
     (* CSI data as array('b'), by reference to frame.data *)
     (MP_QSTR_data, mp_bytearray_by_ref 98 (len frame) (data frame))].

(** [wifi.csi.read ()]; [junk] is the content of the uninitialized local
    [frame].  [None] is undefined behaviour, as for [csi_buffer_read]. *)
Definition wifi_csi_read_obj (junk : csi_frame_t) (w : world)
  : option (mp_obj * world) :=
  match wifi_csi_read_frame junk w with
  | None => None
  | Some (false, _, w') => Some (mp_const_none, w')
  | Some (true, frame, w') => Some (mp_dict (dict_of_frame frame), w')
  end.

(** [wifi.csi.dropped ()] and [wifi.csi.available ()] as objects. *)
Definition wifi_csi_dropped_obj (w : world) : mp_obj :=
  mp_obj_new_int (wifi_csi_dropped w).

Definition wifi_csi_available_obj (w : world) : mp_obj :=
  mp_obj_new_int (wifi_csi_available w).

(** ** Histories of calls into the module *)

(** The entry points: the two lifecycle hooks called by the network module,
    the Python methods and the driver's callback. *)
Inductive op :=
  | Op_init
  | Op_deinit
  | Op_enable
  | Op_disable
  | Op_config (kw : csi_kwargs)
  | Op_read (junk : csi_frame_t)
  | Op_rx_cb (info : wifi_csi_info_t) (now : Z).

Definition step (p : platform) (o : op) (w : world) : option world :=
  match o with
  | Op_init => Some (snd (wifi_csi_init p w))
  | Op_deinit => Some (snd (wifi_csi_deinit p w))
  | Op_enable => Some (snd (wifi_csi_enable_py p w))
  | Op_disable => Some (snd (wifi_csi_disable_py p w))
  | Op_config kw => Some (snd (wifi_csi_config_obj p kw w))
  | Op_read junk => snd <$> wifi_csi_read_obj junk w
  | Op_rx_cb info now => wifi_csi_rx_cb p info now w
  end.

Fixpoint run (p : platform) (ops : list op) (w : world) : option world :=
  match ops with
  | [] => Some w
  | o :: ops' =>
      match step p o w with
      | None => None
      | Some w' => run p ops' w'
      end
  end.

(** What the driver guarantees about [info]: six address bytes, a
    [uint16_t] length and, when there is a payload, at least that many
    bytes. *)
Definition info_ok (info : wifi_csi_info_t) : bool :=
  (length (info_mac info) =? 6)%nat
  && (0 <=? info_len info) && (info_len info <=? 65535)
  && match info_buf info with
     | Some src => info_len info <=? Z.of_nat (length src)
     | None => true
     end.

Definition op_ok (o : op) : bool :=
  match o with Op_rx_cb info _ => info_ok info | _ => true end.

(** The state invariant of the module: the buffer is either uninitialized
    without storage or satisfies [buffer_ok], and the stored [buffer_size] is
    within the bounds the binding enforces. *)
Definition state_ok (w : world) : bool :=
  let g := g_csi_state w in
  (buffer_ok (buffer g)
   || (negb (initialized (buffer g))
       && match frames (buffer g) with None => true | Some _ => false end))
  && (1 <=? buffer_size (config g)) && (buffer_size (config g) <=? 1024).

(** A driver report with [n] payload bytes, all equal to [v]. *)
Definition sample_info (n : Z) (v : Z) : wifi_csi_info_t :=
  mk_info (-40) 11 1 7 0 1 1 0 0 0 0 (-92) 0 6 0 123456 0 64 0
    [1; 2; 3; 4; 5; 6] (Some (replicate (Z.to_nat n) v)) n.

(** ** Arithmetic of the indices *)

(** Distance from [t] forward to [h] round a block of [sz] slots: the
    expression of [wifi.csi.available()] without the [uint32_t] wrapping. *)
Definition dist (sz t h : Z) : Z := if h >=? t then h - t else sz - t + h.

Lemma uint32_small z : 0 <= z <= UINT32_MAX -> uint32 z = z.
Proof. intros H. unfold uint32, UINT32_MAX in *. apply Z.mod_small. lia. Qed.

Lemma succ_mod sz i :
  0 <= i < sz -> (i + 1) mod sz = if i + 1 =? sz then 0 else i + 1.
Proof.
  intros H. destruct (Z.eqb_spec (i + 1) sz) as [E | E].
  - rewrite E. apply Z_mod_same_full.
  - apply Z.mod_small. lia.
Qed.

Lemma succ_mod_range sz i : 0 <= i < sz -> 0 <= (i + 1) mod sz < sz.
Proof. intros H. apply Z.mod_pos_bound. lia. Qed.

Lemma dist_range sz t h : 0 <= t < sz -> 0 <= h < sz -> 0 <= dist sz t h < sz.
Proof. intros Ht Hh. unfold dist. destruct (Z.geb_spec h t); lia. Qed.

Lemma dist_zero sz t h :
  0 <= t < sz -> 0 <= h < sz -> (dist sz t h = 0 <-> h = t).
Proof. intros Ht Hh. unfold dist. destruct (Z.geb_spec h t); lia. Qed.

Lemma dist_pop sz t h :
  0 <= t < sz -> 0 <= h < sz -> h <> t ->
  dist sz ((t + 1) mod sz) h = dist sz t h - 1.
Proof.
  intros Ht Hh Hne. rewrite succ_mod by lia. unfold dist.
  destruct (Z.eqb_spec (t + 1) sz);
    destruct (Z.geb_spec h t); destruct (Z.geb_spec h 0);
    destruct (Z.geb_spec h (t + 1)); lia.
Qed.

Lemma dist_push sz t h :
  0 <= t < sz -> 0 <= h < sz -> (h + 1) mod sz <> t ->
  dist sz t ((h + 1) mod sz) = dist sz t h + 1.
Proof.
  intros Ht Hh. rewrite succ_mod by lia. unfold dist.
  destruct (Z.eqb_spec (h + 1) sz);
    destruct (Z.geb_spec h t); destruct (Z.geb_spec 0 t);
    destruct (Z.geb_spec (h + 1) t); lia.
Qed.

Lemma dist_full sz t h :
  0 <= t < sz -> 0 <= h < sz ->
  ((h + 1) mod sz = t <-> dist sz t h = sz - 1).
Proof.
  intros Ht Hh. rewrite succ_mod by lia. unfold dist.
  destruct (Z.eqb_spec (h + 1) sz); destruct (Z.geb_spec h t); lia.
Qed.

(** ** The buffer invariant *)

Lemma buffer_ok_inv b :
  buffer_ok b = true ->
  initialized b = true /\ 0 < size b <= UINT32_MAX
  /\ (exists fs, frames b = Some fs /\ Z.of_nat (length fs) = size b)
  /\ 0 <= head b < size b /\ 0 <= tail b < size b
  /\ 0 <= dropped b <= UINT32_MAX.
Proof.
  unfold buffer_ok. rewrite !andb_true_iff.
  intros [[[[[[[[[Hi Hs1] Hs2] Hf] Hh1] Hh2] Ht1] Ht2] Hd1] Hd2].
  destruct (frames b) as [fs|]; [|discriminate].
  repeat split; try lia; eauto with lia.
Qed.

Lemma buffer_ok_intro fs h t sz d :
  0 < sz <= UINT32_MAX -> Z.of_nat (length fs) = sz ->
  0 <= h < sz -> 0 <= t < sz -> 0 <= d <= UINT32_MAX ->
  buffer_ok (mk_buffer (Some fs) h t sz d true) = true.
Proof.
  intros. unfold buffer_ok; cbn. rewrite !andb_true_iff.
  repeat split; lia.
Qed.

Lemma buffer_ok_consistent b : buffer_ok b = true -> buffer_consistent b = true.
Proof.
  intros H. apply buffer_ok_inv in H as (Hi & Hs & (fs & Hf & Hl) & _).
  unfold buffer_consistent. rewrite Hi, Hf. rewrite andb_true_iff. lia.
Qed.

Lemma available_dist b :
  buffer_ok b = true ->
  csi_buffer_available b = dist (size b) (tail b) (head b).
Proof.
  intros H. apply buffer_ok_inv in H as (Hi & Hs & _ & Hh & Ht & _).
  unfold csi_buffer_available, dist. rewrite Hi. cbn.
  destruct (Z.geb_spec (head b) (tail b)).
  - apply uint32_small. lia.
  - rewrite (uint32_small (size b - tail b)) by lia. apply uint32_small. lia.
Qed.

(** ** Slots *)

Lemma slot_get_Some fs i :
  0 <= i < Z.of_nat (length fs) -> exists f, slot_get fs i = Some f.
Proof.
  intros H. unfold slot_get.
  replace ((0 <=? i) && (i <? Z.of_nat (length fs))) with true
    by (symmetry; rewrite andb_true_iff; lia).
  apply lookup_lt_is_Some. lia.
Qed.

Lemma slot_set_Some fs i f :
  0 <= i < Z.of_nat (length fs) ->
  slot_set fs i f = Some (<[Z.to_nat i := f]> fs).
Proof.
  intros H. unfold slot_set.
  replace ((0 <=? i) && (i <? Z.of_nat (length fs))) with true
    by (symmetry; rewrite andb_true_iff; lia).
  reflexivity.
Qed.

Lemma slot_get_insert_eq fs i f :
  0 <= i < Z.of_nat (length fs) ->
  slot_get (<[Z.to_nat i := f]> fs) i = Some f.
Proof.
  intros H. unfold slot_get. rewrite length_insert.
  replace ((0 <=? i) && (i <? Z.of_nat (length fs))) with true
    by (symmetry; rewrite andb_true_iff; lia).
  apply list_lookup_insert_eq. lia.
Qed.

Lemma slot_get_insert_ne fs i j f :
  0 <= i -> 0 <= j -> i <> j ->
  slot_get (<[Z.to_nat i := f]> fs) j = slot_get fs j.
Proof.
  intros Hi Hj Hne. unfold slot_get. rewrite length_insert.
  destruct ((0 <=? j) && (j <? Z.of_nat (length fs))); [|reflexivity].
  apply list_lookup_insert_ne. lia.
Qed.

(** Overwriting a slot that is not among the [n] listed ones changes nothing. *)
Lemma slots_from_insert_frame fs sz h f n : forall i,
  0 <= i < sz -> 0 <= h < sz -> Z.of_nat n <= dist sz i h ->
  slots_from (<[Z.to_nat h := f]> fs) sz i n = slots_from fs sz i n.
Proof.
  induction n as [|n IH]; intros i Hi Hh Hn; [reflexivity|].
  assert (h <> i) as Hne.
  { intros ->. pose proof (proj2 (dist_zero sz i i Hi Hi) eq_refl). lia. }
  cbn [slots_from]. rewrite slot_get_insert_ne by lia.
  destruct (slot_get fs i); [|reflexivity].
  f_equal. apply IH; [apply succ_mod_range; lia | lia |].
  rewrite dist_pop by lia. lia.
Qed.

(** Overwriting the slot just past the listed ones appends the new frame. *)
Lemma slots_from_insert_snoc fs sz h f n : forall i,
  Z.of_nat (length fs) = sz ->
  0 <= i < sz -> 0 <= h < sz -> Z.of_nat n = dist sz i h ->
  slots_from (<[Z.to_nat h := f]> fs) sz i (S n) = slots_from fs sz i n ++ [f].
Proof.
  induction n as [|n IH]; intros i Hl Hi Hh Hn.
  - assert (h = i) as -> by (apply (dist_zero sz i h); lia).
    cbn. rewrite slot_get_insert_eq by lia. reflexivity.
  - assert (h <> i) as Hne.
    { intros ->. pose proof (proj2 (dist_zero sz i i Hi Hi) eq_refl). lia. }
    cbn [slots_from]. rewrite slot_get_insert_ne by lia.
    destruct (slot_get_Some fs i) as [x Hx]; [lia|]. rewrite Hx.
    cbn [app]. f_equal.
    change (slots_from (<[Z.to_nat h := f]> fs) sz ((i + 1) mod sz) (S n)
            = slots_from fs sz ((i + 1) mod sz) n ++ [f]).
    apply IH; [lia | apply succ_mod_range; lia | lia |].
    rewrite dist_pop by lia. lia.
Qed.

Lemma slots_from_length fs sz n : forall i,
  Z.of_nat (length fs) = sz -> 0 <= i < sz ->
  length (slots_from fs sz i n) = n.
Proof.
  induction n as [|n IH]; intros i Hl Hi; [reflexivity|].
  cbn [slots_from]. destruct (slot_get_Some fs i) as [x Hx]; [lia|].
  rewrite Hx. cbn. f_equal. apply IH; [lia | apply succ_mod_range; lia].
Qed.

Lemma queued_length b :
  buffer_ok b = true -> Z.of_nat (length (queued b)) = csi_buffer_available b.
Proof.
  intros H. pose proof (available_dist b H) as Ha.
  apply buffer_ok_inv in H as (Hi & Hs & (fs & Hf & Hl) & Hh & Ht & _).
  unfold queued. rewrite Hf, slots_from_length by lia.
  pose proof (dist_range (size b) (tail b) (head b) Ht Hh). lia.
Qed.

(** ** One write, one read *)

Lemma queued_empty b :
  buffer_ok b = true -> head b = tail b -> queued b = [].
Proof.
  intros H E. pose proof (available_dist b H) as Ha.
  apply buffer_ok_inv in H as (Hi & Hs & (fs & Hf & Hl) & Hh & Ht & _).
  unfold queued. rewrite Hf, Ha.
  rewrite (proj2 (dist_zero (size b) (tail b) (head b) Ht Hh) E). reflexivity.
Qed.

(** With room left the frame is stored and becomes the newest queued one. *)
Lemma csi_buffer_write_room b f :
  buffer_ok b = true -> (head b + 1) mod size b <> tail b ->
  exists b',
    csi_buffer_write b f = Some (true, b')
    /\ buffer_ok b' = true
    /\ queued b' = queued b ++ [f]
    /\ dropped b' = dropped b /\ size b' = size b /\ tail b' = tail b.
Proof.
  intros H Hroom. pose proof (available_dist b H) as Ha.
  pose proof (buffer_ok_inv b H) as (Hi & Hs & (fs & Hf & Hl) & Hh & Ht & Hd).
  pose proof (succ_mod_range (size b) (head b) Hh) as Hnh.
  eexists. split; [|split; [|split]].
  - unfold csi_buffer_write. rewrite Hi; cbn [negb].
    destruct (Z.eqb_spec (size b) 0) as [E|_]; [lia|].
    rewrite (uint32_small (head b + 1)) by lia.
    destruct (Z.eqb_spec ((head b + 1) mod size b) (tail b)) as [E|_];
      [contradiction|].
    rewrite Hf, slot_set_Some by lia. reflexivity.
  - apply buffer_ok_intro; rewrite ?length_insert; lia.
  - assert (buffer_ok (mk_buffer (Some (<[Z.to_nat (head b) := f]> fs))
              ((head b + 1) mod size b) (tail b) (size b) (dropped b) true)
            = true) as H'
      by (apply buffer_ok_intro; rewrite ?length_insert; lia).
    unfold queued. cbn [frames size tail]. rewrite Hf.
    rewrite (available_dist _ H'), Ha. cbn [size tail head].
    rewrite dist_push by lia.
    pose proof (dist_range (size b) (tail b) (head b) Ht Hh) as Hr.
    replace (Z.to_nat (dist (size b) (tail b) (head b) + 1))
      with (S (Z.to_nat (dist (size b) (tail b) (head b)))) by lia.
    apply slots_from_insert_snoc; lia.
  - auto.
Qed.

(** On a full buffer only [dropped] moves. *)
Lemma csi_buffer_write_full b f :
  buffer_ok b = true -> (head b + 1) mod size b = tail b ->
  csi_buffer_write b f
  = Some (false,
          mk_buffer (frames b) (head b) (tail b) (size b)
            (uint32 (dropped b + 1)) (initialized b)).
Proof.
  intros H Hfull.
  pose proof (buffer_ok_inv b H) as (Hi & Hs & _ & Hh & Ht & Hd).
  unfold csi_buffer_write. rewrite Hi at 1; cbn [negb].
  destruct (Z.eqb_spec (size b) 0) as [E|_]; [lia|].
  rewrite (uint32_small (head b + 1)) by lia.
  rewrite Hfull, Z.eqb_refl. reflexivity.
Qed.

Lemma csi_buffer_read_empty b dst :
  head b = tail b -> csi_buffer_read b dst = Some (false, dst, b).
Proof.
  intros E. unfold csi_buffer_read, csi_buffer_is_empty.
  rewrite E, Z.eqb_refl, orb_true_r. reflexivity.
Qed.

(** A read hands out the oldest queued frame and removes it. *)
Lemma csi_buffer_read_some b dst :
  buffer_ok b = true -> head b <> tail b ->
  exists x b',
    csi_buffer_read b dst = Some (true, x, b')
    /\ queued b = x :: queued b'
    /\ buffer_ok b' = true
    /\ b' = mk_buffer (frames b) (head b) ((tail b + 1) mod size b) (size b)
              (dropped b) (initialized b).
Proof.
  intros H Hne. pose proof (available_dist b H) as Ha.
  pose proof (buffer_ok_inv b H) as (Hi & Hs & (fs & Hf & Hl) & Hh & Ht & Hd).
  pose proof (succ_mod_range (size b) (tail b) Ht) as Hnt.
  destruct (slot_get_Some fs (tail b)) as [x Hx]; [lia|].
  assert (buffer_ok (mk_buffer (frames b) (head b) ((tail b + 1) mod size b)
            (size b) (dropped b) (initialized b)) = true) as H'
    by (rewrite Hf, Hi; apply buffer_ok_intro; lia).
  exists x. eexists. split; [|split; [|split; [|reflexivity]]].
  - unfold csi_buffer_read, csi_buffer_is_empty. rewrite Hi at 1; cbn [negb orb].
    destruct (Z.eqb_spec (head b) (tail b)) as [E|_]; [contradiction|].
    rewrite Hf at 1. rewrite Hx.
    destruct (Z.eqb_spec (size b) 0) as [E|_]; [lia|].
    rewrite (uint32_small (tail b + 1)) by lia. reflexivity.
  - unfold queued. cbn [frames size tail].
    rewrite (available_dist _ H'), Ha. cbn [size tail head]. rewrite Hf.
    rewrite dist_pop by lia.
    pose proof (dist_range (size b) (tail b) (head b) Ht Hh) as Hr.
    assert (dist (size b) (tail b) (head b) <> 0) as Hnz
      by (rewrite dist_zero by lia; lia).
    replace (Z.to_nat (dist (size b) (tail b) (head b)))
      with (S (Z.to_nat (dist (size b) (tail b) (head b) - 1))) by lia.
    cbn [slots_from]. rewrite Hx. reflexivity.
  - exact H'.
Qed.

Lemma queued_nil_empty b :
  buffer_ok b = true -> queued b = [] -> head b = tail b.
Proof.
  intros H Hq. pose proof (queued_length b H) as Hl.
  rewrite Hq, (available_dist b H) in Hl. cbn in Hl.
  apply buffer_ok_inv in H as (_ & _ & _ & Hh & Ht & _).
  apply (dist_zero (size b) (tail b) (head b)); lia.
Qed.

Lemma queued_full b :
  buffer_ok b = true ->
  ((head b + 1) mod size b = tail b
   <-> Z.of_nat (length (queued b)) = size b - 1).
Proof.
  intros H. rewrite (queued_length b H), (available_dist b H).
  apply buffer_ok_inv in H as (_ & _ & _ & Hh & Ht & _).
  apply dist_full; lia.
Qed.

(** ** Sequences of writes and reads *)

Lemma write_all_app fs1 : forall b fs2,
  write_all b (fs1 ++ fs2)
  = match write_all b fs1 with
    | None => None
    | Some (oks1, b1) =>
        match write_all b1 fs2 with
        | None => None
        | Some (oks2, b2) => Some (oks1 ++ oks2, b2)
        end
    end.
Proof.
  induction fs1 as [|f fs1 IH]; intros b fs2; cbn [write_all app].
  - destruct (write_all b fs2) as [[oks b2]|]; reflexivity.
  - destruct (csi_buffer_write b f) as [[ok b1]|]; [|reflexivity].
    rewrite IH. destruct (write_all b1 fs1) as [[oks1 b1']|]; [|reflexivity].
    destruct (write_all b1' fs2) as [[oks2 b2]|]; reflexivity.
Qed.

(** As long as the frames fit they are all accepted, in order. *)
Lemma write_all_room fs : forall b,
  buffer_ok b = true ->
  Z.of_nat (length (queued b)) + Z.of_nat (length fs) <= size b - 1 ->
  exists b',
    write_all b fs = Some (replicate (length fs) true, b')
    /\ buffer_ok b' = true
    /\ queued b' = queued b ++ fs
    /\ dropped b' = dropped b /\ size b' = size b /\ tail b' = tail b.
Proof.
  induction fs as [|f fs IH]; intros b H Hfit.
  - exists b. rewrite app_nil_r. cbn. auto 10.
  - cbn [length] in Hfit.
    assert ((head b + 1) mod size b <> tail b) as Hroom
      by (rewrite (queued_full b H); lia).
    destruct (csi_buffer_write_room b f H Hroom)
      as (b1 & Hw & H1 & Hq1 & Hd1 & Hs1 & Ht1).
    destruct (IH b1 H1) as (b2 & Hw2 & H2 & Hq2 & Hd2 & Hs2 & Ht2).
    { rewrite Hq1, length_app, Hs1. cbn [length]. lia. }
    exists b2. cbn [write_all length replicate]. rewrite Hw, Hw2.
    repeat split; try congruence.
    rewrite Hq2, Hq1, <- app_assoc. reflexivity.
Qed.

(** Reads return the queued frames oldest first. *)
Lemma read_n_queued n : forall b dst,
  buffer_ok b = true -> (n <= length (queued b))%nat ->
  exists b',
    read_n n b dst = Some (pair true <$> take n (queued b), b')
    /\ buffer_ok b' = true
    /\ queued b' = drop n (queued b)
    /\ head b' = head b /\ dropped b' = dropped b /\ size b' = size b
    /\ frames b' = frames b.
Proof.
  induction n as [|n IH]; intros b dst H Hn.
  - exists b. cbn. auto 10.
  - assert (head b <> tail b) as Hne.
    { intros E. rewrite (queued_empty b H E) in Hn. cbn in Hn. lia. }
    destruct (csi_buffer_read_some b dst H Hne) as (x & b1 & Hr & Hq & H1 & Eb1).
    rewrite Hq in Hn. cbn [length] in Hn.
    destruct (IH b1 x H1) as (b2 & Hr2 & H2 & Hq2 & Hh2 & Hd2 & Hs2 & Hf2);
      [lia|].
    assert (head b1 = head b /\ dropped b1 = dropped b /\ size b1 = size b
            /\ frames b1 = frames b) as (Eh & Ed & Es & Ef)
      by (rewrite Eb1; auto).
    exists b2. cbn [read_n]. rewrite Hr, Hr2, Hq. cbn [take drop fmap list_fmap].
    rewrite Hh2, Hd2, Hs2, Hf2. auto 10.
Qed.

(** ** A successful [csi_buffer_init] *)

Lemma fresh_block_length junk c :
  0 <= c -> Z.of_nat (length (fresh_block junk (sizeof_csi_frame_t * c))) = c.
Proof.
  intros Hc. unfold fresh_block.
  rewrite length_fmap, length_seq, Z.mul_comm, Z.div_mul by discriminate. lia.
Qed.

Lemma csi_buffer_init_success p buf c tr junk :
  1 <= c -> sizeof_csi_frame_t * c <= UINT32_MAX ->
  malloc_ret p (release_old buf tr) (sizeof_csi_frame_t * c) = Some junk ->
  csi_buffer_init p buf c tr
  = (true,
     mk_buffer (Some (fresh_block junk (sizeof_csi_frame_t * c))) 0 0 c 0 true,
     release_old buf tr ++ [Malloc (sizeof_csi_frame_t * c)]).
Proof.
  intros Hc Hfit Hm. unfold csi_buffer_init.
  rewrite (uint32_small (sizeof_csi_frame_t * c))
    by (unfold sizeof_csi_frame_t in *; lia).
  rewrite Hm. reflexivity.
Qed.

Lemma fresh_buffer_ok junk c :
  1 <= c -> sizeof_csi_frame_t * c <= UINT32_MAX ->
  buffer_ok
    (mk_buffer (Some (fresh_block junk (sizeof_csi_frame_t * c))) 0 0 c 0 true)
  = true.
Proof.
  intros Hc Hfit. apply buffer_ok_intro;
    rewrite ?fresh_block_length; unfold sizeof_csi_frame_t, UINT32_MAX in *; lia.
Qed.

Lemma uint32_range z : 0 <= uint32 z <= UINT32_MAX.
Proof.
  unfold uint32, UINT32_MAX.
  pose proof (Z.mod_pos_bound z (2 ^ 32) eq_refl). lia.
Qed.

(** Counting a drop keeps the invariant and the queued frames. *)
Lemma drop_counted_ok b :
  buffer_ok b = true ->
  buffer_ok (mk_buffer (frames b) (head b) (tail b) (size b)
               (uint32 (dropped b + 1)) (initialized b)) = true.
Proof.
  intros H. apply buffer_ok_inv in H as (Hi & Hs & (fs & Hf & Hl) & Hh & Ht & _).
  rewrite Hi, Hf. apply buffer_ok_intro; auto using uint32_range.
Qed.

(** One frame more than fits into an empty buffer: the last one is dropped. *)
Lemma write_all_one_too_many b fs :
  buffer_ok b = true -> head b = tail b ->
  Z.of_nat (length fs) = size b ->
  exists b',
    write_all b fs
    = Some (replicate (Z.to_nat (size b - 1)) true ++ [false], b')
    /\ buffer_ok b' = true
    /\ dropped b' = uint32 (dropped b + 1)
    /\ queued b' = take (Z.to_nat (size b - 1)) fs
    /\ size b' = size b /\ tail b' = tail b.
Proof.
  intros H He Hlen.
  pose proof (buffer_ok_inv b H) as (_ & Hs & _).
  destruct fs as [|f fs1 _] using rev_ind; [cbn in Hlen; lia|].
  rewrite length_app in Hlen. cbn [length] in Hlen.
  replace (Z.to_nat (size b - 1)) with (length fs1) by lia.
  pose proof (queued_empty b H He) as Hq0.
  destruct (write_all_room fs1 b H) as (b1 & Hw & H1 & Hq1 & Hd1 & Hs1 & Ht1).
  { rewrite Hq0. cbn [length]. lia. }
  rewrite Hq0 in Hq1. cbn [app] in Hq1.
  assert ((head b1 + 1) mod size b1 = tail b1) as Hfull
    by (rewrite (queued_full b1 H1), Hq1; lia).
  eexists. rewrite write_all_app, Hw. cbn [write_all].
  rewrite (csi_buffer_write_full b1 f H1 Hfull).
  split; [reflexivity|]. split; [apply drop_counted_ok; exact H1|].
  cbn [dropped size tail]. rewrite Hd1, take_app_length.
  repeat split; assumption.
Qed.

Lemma is_full_spec b :
  buffer_ok b = true ->
  (csi_buffer_is_full b = Some true <-> (head b + 1) mod size b = tail b).
Proof.
  intros H. apply buffer_ok_inv in H as (_ & Hs & _ & Hh & _).
  unfold csi_buffer_is_full.
  destruct (Z.eqb_spec (size b) 0) as [E|_]; [lia|].
  rewrite (uint32_small (head b + 1)) by lia.
  destruct (Z.eqb_spec ((head b + 1) mod size b) (tail b)); split;
    congruence.
Qed.

Lemma is_empty_spec b : csi_buffer_is_empty b = true <-> head b = tail b.
Proof. unfold csi_buffer_is_empty. apply Z.eqb_eq. Qed.

Lemma available_of_queued b n :
  buffer_ok b = true -> Z.of_nat (length (queued b)) = n ->
  csi_buffer_available b = n.
Proof. intros H <-. symmetry. apply queued_length. exact H. Qed.

(** * The ring buffer claims *)




(** C2.  On every initialized buffer that is full, [csi_buffer_write] returns
    [false] and changes nothing but [dropped], which the [uint32_t] increment
    raises by one (by exactly one below [UINT32_MAX]): [head], [tail], the
    slots and hence the queued frames stay as they were, nothing is evicted.
    Consequently [N] frames written into an empty buffer of [N] slots give
    [N - 1] accepted writes and one drop (the last), [available () = N - 1],
    and the buffer holds the first [N - 1] frames, which the next [N - 1]
    reads return. *)
Theorem csi_buffer_write_drops_newest
    (b : csi_buffer_t) (frame : csi_frame_t)
    (e : csi_buffer_t) (fs : list csi_frame_t) (dst : csi_frame_t) :
  buffer_ok b = true ->
  csi_buffer_is_full b = Some true ->
  buffer_ok e = true ->
  csi_buffer_is_empty e = true ->
  Z.of_nat (length fs) = size e ->
  (csi_buffer_write b frame
   = Some (false,
           mk_buffer (frames b) (head b) (tail b) (size b)
             (uint32 (dropped b + 1)) (initialized b))
   /\ (dropped b < UINT32_MAX -> uint32 (dropped b + 1) = dropped b + 1)
   /\ forall b', csi_buffer_write b frame = Some (false, b') ->
                 queued b' = queued b)
  /\ exists e' e'',
       write_all e fs
       = Some (replicate (Z.to_nat (size e - 1)) true ++ [false], e')
       /\ dropped e' = uint32 (dropped e + 1)
       /\ (dropped e = 0 -> dropped e' = 1)
       /\ csi_buffer_available e' = size e - 1
       /\ queued e' = take (Z.to_nat (size e - 1)) fs
       /\ read_n (Z.to_nat (size e - 1)) e' dst
          = Some (pair true <$> take (Z.to_nat (size e - 1)) fs, e'').
Proof.
  intros Hb Hfull He Hempty Hlen.
  apply (is_full_spec b Hb) in Hfull. apply is_empty_spec in Hempty.
  pose proof (csi_buffer_write_full b frame Hb Hfull) as Hw.
  split.
  - split; [exact Hw|]. split.
    + intros Hd. apply uint32_small.
      pose proof (buffer_ok_inv b Hb) as (_ & _ & _ & _ & _ & Hr). lia.
    + intros b' Hw'. rewrite Hw in Hw'. injection Hw' as <-. reflexivity.
  - destruct (write_all_one_too_many e fs He Hempty Hlen)
      as (e' & Hwa & He' & Hd & Hq & Hs & _).
    pose proof (buffer_ok_inv e He) as (_ & Hsz & _).
    assert (length (queued e') = Z.to_nat (size e - 1)) as Hql
      by (rewrite Hq, length_take; lia).
    destruct (read_n_queued (Z.to_nat (size e - 1)) e' dst He')
      as (e'' & Hr & _); [lia|].
    exists e', e''. split; [exact Hwa|]. split; [exact Hd|].
    split; [intros Hz; rewrite Hd, Hz; reflexivity|].
    split; [apply available_of_queued; [exact He'|lia]|].
    split; [exact Hq|].
    rewrite Hr. do 3 f_equal. rewrite <- Hql at 1. rewrite firstn_all. exact Hq.
Qed.

Lemma csi_buffer_write_drops_newest_witness :
  let b := mk_buffer
             (Some [sample_frame 1; sample_frame 2; sample_frame 3; zero_frame])
             3 0 4 7 true in
  let e := mk_buffer (Some (replicate 4 zero_frame)) 2 2 4 0 true in
  let fs := [sample_frame 5; sample_frame 6; sample_frame 7; sample_frame 8] in
  (csi_buffer_write b (sample_frame 4)
   = Some (false,
           mk_buffer (frames b) (head b) (tail b) (size b)
             (uint32 (dropped b + 1)) (initialized b))
   /\ (dropped b < UINT32_MAX -> uint32 (dropped b + 1) = dropped b + 1)
   /\ forall b', csi_buffer_write b (sample_frame 4) = Some (false, b') ->
                 queued b' = queued b)
  /\ exists e' e'',
       write_all e fs
       = Some (replicate (Z.to_nat (size e - 1)) true ++ [false], e')
       /\ dropped e' = uint32 (dropped e + 1)
       /\ (dropped e = 0 -> dropped e' = 1)
       /\ csi_buffer_available e' = size e - 1
       /\ queued e' = take (Z.to_nat (size e - 1)) fs
       /\ read_n (Z.to_nat (size e - 1)) e' zero_frame
          = Some (pair true <$> take (Z.to_nat (size e - 1)) fs, e'').
Proof.
  intros b e fs.
  apply (csi_buffer_write_drops_newest b (sample_frame 4) e fs zero_frame);
    reflexivity.
Defined.

(** C3.  On a freshly initialized buffer of [N] slots, any [K <= N - 1]
    frames are all accepted by [K] writes, and the following [K] reads all
    succeed and return exactly those frames, in the order written.  Afterwards
    the buffer is empty again: [head = tail], nothing is available and a
    further read reports no data, leaving its destination untouched. *)
Theorem csi_buffer_fifo_roundtrip
    (p : platform) (buf : csi_buffer_t) (N : Z) (tr : list call)
    (junk : nat -> csi_frame_t) (fs : list csi_frame_t) (dst : csi_frame_t) :
  1 <= N ->
  sizeof_csi_frame_t * N <= UINT32_MAX ->
  malloc_ret p (release_old buf tr) (sizeof_csi_frame_t * N) = Some junk ->
  Z.of_nat (length fs) <= N - 1 ->
  exists b tr' b1 b2,
    csi_buffer_init p buf N tr = (true, b, tr')
    /\ write_all b fs = Some (replicate (length fs) true, b1)
    /\ read_n (length fs) b1 dst = Some (pair true <$> fs, b2)
    /\ head b2 = tail b2
    /\ csi_buffer_available b2 = 0
    /\ forall d, csi_buffer_read b2 d = Some (false, d, b2).
Proof.
  intros HN Hfit Hm HK.
  pose proof (fresh_buffer_ok junk N HN Hfit) as Hok.
  set (b := mk_buffer (Some (fresh_block junk (sizeof_csi_frame_t * N)))
              0 0 N 0 true) in *.
  pose proof (queued_empty b Hok eq_refl) as Hq0.
  destruct (write_all_room fs b Hok) as (b1 & Hw & H1 & Hq1 & _).
  { rewrite Hq0. cbn. lia. }
  rewrite Hq0 in Hq1. cbn [app] in Hq1.
  destruct (read_n_queued (length fs) b1 dst H1) as (b2 & Hr & H2 & Hq2 & _).
  { rewrite Hq1. lia. }
  rewrite Hq1, firstn_all in Hr. rewrite Hq1, drop_all in Hq2.
  pose proof (queued_nil_empty b2 H2 Hq2) as Hemp.
  exists b, (release_old buf tr ++ [Malloc (sizeof_csi_frame_t * N)]), b1, b2.
  split; [apply csi_buffer_init_success; assumption|].
  split; [exact Hw|]. split; [exact Hr|]. split; [exact Hemp|].
  split; [apply available_of_queued; [exact H2 | rewrite Hq2; reflexivity]|].
  intros d. apply csi_buffer_read_empty. exact Hemp.
Qed.

Lemma csi_buffer_fifo_roundtrip_witness :
  let fs := [sample_frame 1; sample_frame 2; sample_frame 3] in
  exists b tr' b1 b2,
    csi_buffer_init platform_ok buffer_initial 4 [] = (true, b, tr')
    /\ write_all b fs = Some (replicate (length fs) true, b1)
    /\ read_n (length fs) b1 zero_frame = Some (pair true <$> fs, b2)
    /\ head b2 = tail b2
    /\ csi_buffer_available b2 = 0
    /\ forall d, csi_buffer_read b2 d = Some (false, d, b2).
Proof.
  intros fs.
  apply (csi_buffer_fifo_roundtrip platform_ok buffer_initial 4 []
           (fun _ => zero_frame) fs zero_frame);
    [lia | unfold sizeof_csi_frame_t, UINT32_MAX; lia | reflexivity
     | cbn; lia].
Defined.

(** C9 (as the code has it).  [dropped] is a plain [uint32_t] that
    [csi_buffer_write] increments with [++]: each dropped frame raises it by
    one modulo [2^32], so below [UINT32_MAX] it grows by exactly one and at
    [UINT32_MAX] a further dropped frame wraps it round to zero. *)
Theorem dropped_counter_wraps_around (b : csi_buffer_t) (frame : csi_frame_t) :
  buffer_ok b = true ->
  csi_buffer_is_full b = Some true ->
  exists b',
    csi_buffer_write b frame = Some (false, b')
    /\ dropped b' = (dropped b + 1) mod 2 ^ 32
    /\ (dropped b < UINT32_MAX -> dropped b' = dropped b + 1)
    /\ (dropped b = UINT32_MAX -> dropped b' = 0).
Proof.
  intros Hb Hfull. apply (is_full_spec b Hb) in Hfull.
  eexists. split; [apply csi_buffer_write_full; assumption|].
  cbn [dropped]. split; [reflexivity|]. split.
  - intros Hd. apply uint32_small.
    pose proof (buffer_ok_inv b Hb) as (_ & _ & _ & _ & _ & Hr). lia.
  - intros ->. reflexivity.
Qed.

Lemma dropped_counter_wraps_around_witness :
  let b := mk_buffer (Some [sample_frame 1; zero_frame]) 1 0 2 41 true in
  exists b',
    csi_buffer_write b (sample_frame 2) = Some (false, b')
    /\ dropped b' = (dropped b + 1) mod 2 ^ 32
    /\ (dropped b < UINT32_MAX -> dropped b' = dropped b + 1)
    /\ (dropped b = UINT32_MAX -> dropped b' = 0).
Proof.
  intros b.
  apply (dropped_counter_wraps_around b (sample_frame 2)); reflexivity.
Defined.

(** C9 as stated fails: with [dropped] at [UINT32_MAX] one more dropped frame
    leaves the counter at zero, not at the maximum. *)
Lemma dropped_counter_does_not_saturate :
  exists b',
    csi_buffer_write
      (mk_buffer (Some [sample_frame 1; zero_frame]) 1 0 2 UINT32_MAX true)
      (sample_frame 2)
    = Some (false, b')
    /\ dropped b' = 0
    /\ dropped b' <> UINT32_MAX.
Proof.
  eexists. split; [vm_compute; reflexivity|].
  split; [reflexivity | discriminate].
Qed.

(** * The capture controller *)

Lemma esp_ok_true r : esp_ok r = true <-> r = ESP_OK.
Proof. unfold esp_ok. apply Z.eqb_eq. Qed.

Lemma esp_ok_false r : esp_ok r = false <-> r <> ESP_OK.
Proof. unfold esp_ok. apply Z.eqb_neq. Qed.

(** Closes a goal [config_calls_from p c cs] or [no_driver_call cs] on an
    explicit list of calls. *)
Ltac calls_by_cases :=
  let x := fresh "x" in
  let Hin := fresh "Hin" in
  intros x Hin; cbn in Hin;
  repeat (destruct Hin as [Hin | Hin];
          [ try discriminate Hin; try (injection Hin as <-; reflexivity);
            try (subst x; eauto; fail) | ]);
  try contradiction.

(** Splits on every driver answer tested in the goal. *)
Ltac split_answers :=
  repeat match goal with
         | |- context [esp_ok ?x] => destruct (esp_ok x) eqn:?; cbn
         end;
  rewrite ?esp_ok_true, ?esp_ok_false in *.

Lemma wifi_csi_disable_eq p w :
  wifi_csi_disable p w
  = if enabled (g_csi_state w) then
      let r := driver_ret p (trace w) (Esp_wifi_set_csi false) in
      if esp_ok r then
        (ESP_OK,
         mk_world
           (mk_state (buffer (g_csi_state w)) (config (g_csi_state w)) false)
           (trace w ++ [Esp_wifi_set_csi false]))
      else (r, mk_world (g_csi_state w) (trace w ++ [Esp_wifi_set_csi false]))
    else (ESP_OK, w).
Proof.
  unfold wifi_csi_disable, bind, get_state, esp_wifi, set_enabled, ret.
  destruct (enabled (g_csi_state w)); cbn; [|reflexivity].
  destruct (esp_ok _); reflexivity.
Qed.

Lemma enable_driver_sequence_spec p w r w' :
  enable_driver_sequence p w = (r, w') ->
  buffer (g_csi_state w') = buffer (g_csi_state w)
  /\ config (g_csi_state w') = config (g_csi_state w)
  /\ (r = ESP_OK ->
      enabled (g_csi_state w') = true
      /\ trace w' = trace w ++ enable_calls p (config (g_csi_state w))
      /\ drop 2 (answers p (trace w) (enable_calls p (config (g_csi_state w))))
         = replicate 4 ESP_OK)
  /\ (r <> ESP_OK ->
      enabled (g_csi_state w') = enabled (g_csi_state w)
      /\ exists pre c,
           trace w' = pre ++ [c] /\ enable_step c = true
           /\ r = driver_ret p pre c)
  /\ exists ext,
       trace w' = trace w ++ ext
       /\ config_calls_from p (config (g_csi_state w)) ext.
Proof.
  unfold enable_driver_sequence, bind, get_state, esp_wifi, set_enabled, ret.
  cbn. split_answers.
  all: intros [= <- <-]; cbn.
  all: split; [reflexivity|]; split; [reflexivity|].
  all: split; [intros Hr; try contradiction|split; [intros Hr; try contradiction|]].
  all: try (split; [reflexivity|]; split;
            [rewrite <- !app_assoc; reflexivity | cbn; congruence]).
  all: try (split; [reflexivity|]; eexists _, _;
            split; [reflexivity|]; split; reflexivity).
  all: eexists; (split; [rewrite <- !app_assoc; reflexivity|]); calls_by_cases.
Qed.

Lemma g_buffer_init_eq p sz w :
  g_buffer_init p sz w
  = let g := g_csi_state w in
    let tr1 := release_old (buffer g) (trace w) in
    let n := uint32 (sizeof_csi_frame_t * sz) in
    match malloc_ret p tr1 n with
    | None =>
        (false,
         mk_world
           (mk_state
              (mk_buffer None (head (buffer g)) (tail (buffer g))
                 (size (buffer g)) (dropped (buffer g))
                 (initialized (buffer g)))
              (config g) (enabled g))
           (tr1 ++ [Malloc n]))
    | Some junk =>
        (true,
         mk_world
           (mk_state (mk_buffer (Some (fresh_block junk n)) 0 0 sz 0 true)
              (config g) (enabled g))
           (tr1 ++ [Malloc n]))
    end.
Proof.
  unfold g_buffer_init, csi_buffer_init. cbn.
  destruct (malloc_ret p _ _); reflexivity.
Qed.

Lemma wifi_csi_enable_eq p w :
  wifi_csi_enable p w
  = if enabled (g_csi_state w) then (ESP_OK, w)
    else if initialized (buffer (g_csi_state w)) then enable_driver_sequence p w
    else
      let (ok, w1) :=
        g_buffer_init p (buffer_size (config (g_csi_state w))) w in
      if ok then enable_driver_sequence p w1 else (ESP_ERR_NO_MEM, w1).
Proof.
  unfold wifi_csi_enable, bind, get_state, ret.
  destruct (enabled (g_csi_state w)); [reflexivity|].
  destruct (initialized (buffer (g_csi_state w))); cbn; [reflexivity|].
  destruct (g_buffer_init p _ w) as [[] w1]; reflexivity.
Qed.

Lemma queued_uninitialized b : initialized b = false -> queued b = [].
Proof.
  intros H. unfold queued, csi_buffer_available. rewrite H. cbn.
  destruct (frames b); reflexivity.
Qed.

(** [wifi_csi_enable] never touches an initialized buffer, and in no case
    changes the queued frames. *)
Lemma wifi_csi_enable_buffer p w r w' :
  wifi_csi_enable p w = (r, w') ->
  (initialized (buffer (g_csi_state w)) = true ->
   buffer (g_csi_state w') = buffer (g_csi_state w))
  /\ queued (buffer (g_csi_state w')) = queued (buffer (g_csi_state w)).
Proof.
  rewrite wifi_csi_enable_eq.
  destruct (enabled (g_csi_state w)); [intros [= <- <-]; auto|].
  destruct (initialized (buffer (g_csi_state w))) eqn:Hi.
  - intros H. apply enable_driver_sequence_spec in H as (Hb & _).
    rewrite Hb. auto.
  - rewrite g_buffer_init_eq. cbn zeta.
    rewrite (queued_uninitialized _ Hi).
    destruct (malloc_ret p _ _) as [junk|].
    + intros H. apply enable_driver_sequence_spec in H as (Hb & _).
      rewrite Hb. split; [discriminate | reflexivity].
    + intros [= <- <-]. split; [discriminate | reflexivity].
Qed.

(** The driver part of the enable sequence, case by case: either all four
    fallible steps answered [ESP_OK], or the run stopped right after the
    first of them that did not. *)
Lemma enable_driver_sequence_cases p w r w' :
  enable_driver_sequence p w = (r, w') ->
  let calls := enable_calls p (config (g_csi_state w)) in
  let ans := answers p (trace w) calls in
  buffer (g_csi_state w') = buffer (g_csi_state w)
  /\ config (g_csi_state w') = config (g_csi_state w)
  /\ ((r = ESP_OK
       /\ enabled (g_csi_state w') = true
       /\ trace w' = trace w ++ calls
       /\ drop 2 ans = replicate 4 ESP_OK)
      \/ (r <> ESP_OK
          /\ enabled (g_csi_state w') = enabled (g_csi_state w)
          /\ exists k,
               (2 <= k <= 5)%nat
               /\ ans !! k = Some r
               /\ (forall j, (2 <= j < k)%nat -> ans !! j = Some ESP_OK)
               /\ trace w' = trace w ++ take (S k) calls)).
Proof.
  unfold enable_driver_sequence, bind, get_state, esp_wifi, set_enabled, ret.
  cbn. split_answers.
  all: intros [= <- <-]; cbn.
  all: split; [reflexivity|]; split; [reflexivity|].
  1: { left. split; [reflexivity|]. split; [reflexivity|].
       split; [rewrite <- !app_assoc; reflexivity | congruence]. }
  all: right; split; [assumption|]; split; [reflexivity|].
  1: exists 5%nat.
  2: exists 4%nat.
  3: exists 3%nat.
  4: exists 2%nat.
  all: split; [lia|]; split; [reflexivity|];
    split; [|rewrite <- !app_assoc; reflexivity].
  all: intros j Hj;
    assert (j = 2 \/ j = 3 \/ j = 4)%nat as [-> | [-> | ->]] by lia;
    try lia; cbn; congruence.
Qed.

(** C6.  [wifi_csi_enable] on an Enabled controller returns [ESP_OK] and
    changes nothing.  Otherwise, after the buffer has been ensured (one
    [malloc] if it was not initialized, nothing if it was), the six driver
    calls are made in their fixed order, each exactly once, and the outcome
    is decided by the answers to the four fallible ones (promiscuous mode,
    configuration, callback, capture start).  If they all answer [ESP_OK]
    the call returns [ESP_OK] with the flag set and the trace extended by
    exactly the complete sequence.  If not, the call returns, verbatim, the
    answer of the first fallible step that failed; that step is the last call
    made (the trace is extended by the sequence up to and including it,
    nothing is retried or rolled back) and the flag stays clear.  The only
    other failure is [ESP_ERR_NO_MEM] when the buffer allocation returns
    [NULL], before any driver call.  So the flag ends up set exactly when the
    call returns [ESP_OK], and then the buffer is initialized. *)
Theorem wifi_csi_enable_all_or_nothing
    (p : platform) (w : world) (r : esp_err_t) (w' : world) :
  wifi_csi_enable p w = (r, w') ->
  let g := g_csi_state w in
  let g' := g_csi_state w' in
  let n := uint32 (sizeof_csi_frame_t * buffer_size (config g)) in
  let tr0 := if initialized (buffer g) then trace w
             else trace w ++ [Malloc n] in
  let calls := enable_calls p (config g) in
  let ans := answers p tr0 calls in
  (enabled g = true -> r = ESP_OK /\ w' = w)
  /\ (enabled g = false ->
      config g' = config g
      /\ (enabled g' = true <-> r = ESP_OK)
      /\ (initialized (buffer g) = true -> buffer g' = buffer g)
      /\ (r = ESP_OK ->
          initialized (buffer g') = true
          /\ trace w' = tr0 ++ calls
          /\ drop 2 ans = replicate 4 ESP_OK
          /\ exists tr0',
               trace w' = tr0' ++ calls
               /\ drop 2 (answers p tr0' calls) = replicate 4 ESP_OK)
      /\ (r <> ESP_OK ->
          (r = ESP_ERR_NO_MEM
           /\ initialized (buffer g) = false
           /\ malloc_ret p (trace w) n = None
           /\ initialized (buffer g') = false
           /\ trace w' = trace w ++ [Malloc n]
           /\ exists n', trace w' = trace w ++ [Malloc n'])
          \/ ((initialized (buffer g) = true
               \/ malloc_ret p (trace w) n <> None)
              /\ (exists k,
                    (2 <= k <= 5)%nat
                    /\ ans !! k = Some r
                    /\ (forall j, (2 <= j < k)%nat -> ans !! j = Some ESP_OK)
                    /\ trace w' = tr0 ++ take (S k) calls)
              /\ exists pre c,
                   trace w' = pre ++ [c] /\ enable_step c = true
                   /\ r = driver_ret p pre c))).
Proof.
  cbv zeta. rewrite wifi_csi_enable_eq.
  destruct (enabled (g_csi_state w)) eqn:En.
  { intros [= <- <-]. split; [auto | discriminate]. }
  intros H. split; [discriminate|]. intros _.
  (* the driver part, from a state [w1] with the same configuration *)
  assert (forall w1,
            enable_driver_sequence p w1 = (r, w') ->
            config (g_csi_state w1) = config (g_csi_state w) ->
            enabled (g_csi_state w1) = false ->
            let calls := enable_calls p (config (g_csi_state w)) in
            let ans := answers p (trace w1) calls in
            config (g_csi_state w') = config (g_csi_state w)
            /\ buffer (g_csi_state w') = buffer (g_csi_state w1)
            /\ (enabled (g_csi_state w') = true <-> r = ESP_OK)
            /\ (r = ESP_OK ->
                trace w' = trace w1 ++ calls
                /\ drop 2 ans = replicate 4 ESP_OK)
            /\ (r <> ESP_OK ->
                (exists k,
                   (2 <= k <= 5)%nat
                   /\ ans !! k = Some r
                   /\ (forall j, (2 <= j < k)%nat -> ans !! j = Some ESP_OK)
                   /\ trace w' = trace w1 ++ take (S k) calls)
                /\ exists pre c,
                     trace w' = pre ++ [c] /\ enable_step c = true
                     /\ r = driver_ret p pre c)) as Hseq.
  { intros w1 H1 Hc He. cbv zeta.
    pose proof (enable_driver_sequence_spec p w1 r w' H1)
      as (_ & _ & _ & Hlast & _).
    apply enable_driver_sequence_cases in H1 as (Hb & Hc' & Hcases).
    cbv zeta in Hcases. rewrite Hc in *.
    split; [exact Hc'|]. split; [exact Hb|].
    destruct Hcases as [(Hr & He' & Ht & Ha) | (Hr & He' & Hk)].
    - split; [split; auto|]. split; [auto|]. intros Hne. contradiction.
    - split; [split; [congruence|contradiction]|].
      split; [contradiction|]. intros _. split; [exact Hk|].
      destruct (Hlast Hr) as (_ & Hpre). exact Hpre. }
  destruct (initialized (buffer (g_csi_state w))) eqn:Hi.
  - destruct (Hseq w H eq_refl En) as (A & B & C & D & E). cbv zeta in D, E.
    split; [exact A|]. split; [exact C|]. split; [intros _; exact B|].
    split.
    + intros Hr. destruct (D Hr) as [Ht Ha].
      split; [rewrite B; exact Hi|]. split; [exact Ht|]. split; [exact Ha|].
      eauto.
    + intros Hr. right. destruct (E Hr) as [Hk Hpre]. auto.
  - rewrite g_buffer_init_eq in H. cbv zeta in H.
    unfold release_old in H. rewrite Hi in H.
    destruct (malloc_ret p (trace w) _) as [junk|] eqn:Hm.
    + destruct (Hseq _ H eq_refl En) as (A & B & C & D & E).
      cbv zeta in D, E. cbn [trace] in D, E.
      split; [exact A|]. split; [exact C|]. split; [discriminate|].
      split.
      * intros Hr. destruct (D Hr) as [Ht Ha].
        split; [rewrite B; reflexivity|]. split; [exact Ht|].
        split; [exact Ha|]. eauto.
      * intros Hr. right. destruct (E Hr) as [Hk Hpre].
        split; [right; discriminate|]. auto.
    + clear Hseq. injection H as <- <-. cbn. rewrite ?En.
      split; [reflexivity|]. split; [split; discriminate|].
      split; [discriminate|]. split; [discriminate|].
      intros _. left. repeat split; eauto.
Qed.

Lemma wifi_csi_enable_all_or_nothing_witness :
  let p := platform_cb_fails in
  let w := world_initial in
  let r := fst (wifi_csi_enable p w) in
  let w' := snd (wifi_csi_enable p w) in
  let g := g_csi_state w in
  let g' := g_csi_state w' in
  let n := uint32 (sizeof_csi_frame_t * buffer_size (config g)) in
  let tr0 := if initialized (buffer g) then trace w
             else trace w ++ [Malloc n] in
  let calls := enable_calls p (config g) in
  let ans := answers p tr0 calls in
  r = 12289
  /\ trace w' = [Malloc 21504] ++ take 5 calls
  /\ (enabled g = true -> r = ESP_OK /\ w' = w)
  /\ (enabled g = false ->
      config g' = config g
      /\ (enabled g' = true <-> r = ESP_OK)
      /\ (initialized (buffer g) = true -> buffer g' = buffer g)
      /\ (r = ESP_OK ->
          initialized (buffer g') = true
          /\ trace w' = tr0 ++ calls
          /\ drop 2 ans = replicate 4 ESP_OK
          /\ exists tr0',
               trace w' = tr0' ++ calls
               /\ drop 2 (answers p tr0' calls) = replicate 4 ESP_OK)
      /\ (r <> ESP_OK ->
          (r = ESP_ERR_NO_MEM
           /\ initialized (buffer g) = false
           /\ malloc_ret p (trace w) n = None
           /\ initialized (buffer g') = false
           /\ trace w' = trace w ++ [Malloc n]
           /\ exists n', trace w' = trace w ++ [Malloc n'])
          \/ ((initialized (buffer g) = true
               \/ malloc_ret p (trace w) n <> None)
              /\ (exists k,
                    (2 <= k <= 5)%nat
                    /\ ans !! k = Some r
                    /\ (forall j, (2 <= j < k)%nat -> ans !! j = Some ESP_OK)
                    /\ trace w' = tr0 ++ take (S k) calls)
              /\ exists pre c,
                   trace w' = pre ++ [c] /\ enable_step c = true
                   /\ r = driver_ret p pre c))).
Proof.
  intros p w r w'. cbv zeta. split; [reflexivity|]. split; [reflexivity|].
  apply (wifi_csi_enable_all_or_nothing p w r w'). reflexivity.
Defined.

(** ** Disable and reconfigure *)

(** C7.  [wifi_csi_disable] on a Disabled controller returns [ESP_OK] and
    changes nothing.  Otherwise it makes one driver call, the one stopping
    the capture, returns that call's answer and clears the flag when the
    answer is [ESP_OK]; the ring buffer (storage, [head], [tail], [dropped],
    hence every queued frame) and the configuration are left as they were.
    A following [wifi_csi_enable] leaves an initialized buffer untouched as
    well, so the frames queued before the disable are still queued after the
    enable. *)
Theorem wifi_csi_disable_keeps_buffer
    (p : platform) (w : world) (r : esp_err_t) (w' : world) :
  wifi_csi_disable p w = (r, w') ->
  buffer (g_csi_state w') = buffer (g_csi_state w)
  /\ config (g_csi_state w') = config (g_csi_state w)
  /\ (enabled (g_csi_state w) = false -> r = ESP_OK /\ w' = w)
  /\ (enabled (g_csi_state w) = true ->
      trace w' = trace w ++ [Esp_wifi_set_csi false]
      /\ r = driver_ret p (trace w) (Esp_wifi_set_csi false)
      /\ enabled (g_csi_state w') = negb (esp_ok r))
  /\ forall r2 w2,
       wifi_csi_enable p w' = (r2, w2) ->
       queued (buffer (g_csi_state w2)) = queued (buffer (g_csi_state w))
       /\ (initialized (buffer (g_csi_state w)) = true ->
           buffer (g_csi_state w2) = buffer (g_csi_state w)).
Proof.
  rewrite wifi_csi_disable_eq. intros H.
  assert (buffer (g_csi_state w') = buffer (g_csi_state w)) as Hb.
  { destruct (enabled (g_csi_state w)); cbn zeta in H;
      [destruct (esp_ok _)|]; injection H as <- <-; reflexivity. }
  split; [exact Hb|]. split; [|split; [|split]].
  - destruct (enabled (g_csi_state w)); cbn zeta in H;
      [destruct (esp_ok _)|]; injection H as <- <-; reflexivity.
  - intros En. rewrite En in H. injection H as <- <-. auto.
  - intros En. rewrite En in H. cbn zeta in H.
    destruct (esp_ok (driver_ret p (trace w) (Esp_wifi_set_csi false))) eqn:E;
      injection H as <- <-; cbn.
    + apply esp_ok_true in E. rewrite E. auto.
    + rewrite E, En. auto.
  - intros r2 w2 H2. apply wifi_csi_enable_buffer in H2 as (Hi & Hq).
    rewrite Hb in Hi, Hq. split; [exact Hq | exact Hi].
Qed.

Lemma wifi_csi_disable_keeps_buffer_witness :
  let w := sample_world true in
  let r := fst (wifi_csi_disable platform_ok w) in
  let w' := snd (wifi_csi_disable platform_ok w) in
  queued (buffer (g_csi_state w)) = [sample_frame 1; sample_frame 2]
  /\ buffer (g_csi_state w') = buffer (g_csi_state w)
  /\ config (g_csi_state w') = config (g_csi_state w)
  /\ (enabled (g_csi_state w) = false -> r = ESP_OK /\ w' = w)
  /\ (enabled (g_csi_state w) = true ->
      trace w' = trace w ++ [Esp_wifi_set_csi false]
      /\ r = driver_ret platform_ok (trace w) (Esp_wifi_set_csi false)
      /\ enabled (g_csi_state w') = negb (esp_ok r))
  /\ forall r2 w2,
       wifi_csi_enable platform_ok w' = (r2, w2) ->
       queued (buffer (g_csi_state w2)) = queued (buffer (g_csi_state w))
       /\ (initialized (buffer (g_csi_state w)) = true ->
           buffer (g_csi_state w2) = buffer (g_csi_state w)).
Proof.
  intros w r w'. split; [reflexivity|].
  apply (wifi_csi_disable_keeps_buffer platform_ok w r w').
  reflexivity.
Defined.

(** *** The pieces of [wifi_csi_config] *)

Lemma g_buffer_deinit_eq w :
  g_buffer_deinit w
  = let g := g_csi_state w in
    match initialized (buffer g), frames (buffer g) with
    | true, Some _ =>
        (tt,
         mk_world
           (mk_state
              (mk_buffer None (head (buffer g)) (tail (buffer g))
                 (size (buffer g)) (dropped (buffer g)) false)
              (config g) (enabled g))
           (trace w ++ [Free]))
    | _, _ => (tt, w)
    end.
Proof.
  unfold g_buffer_deinit, csi_buffer_deinit. cbn.
  destruct w as [[b c e] tr]; cbn.
  destruct (initialized b), (frames b); reflexivity.
Qed.

Lemma wifi_csi_config_eq p c w :
  wifi_csi_config p (Some c) w
  = let g := g_csi_state w in
    let w0 := mk_world (mk_state (buffer g) c (enabled g)) (trace w) in
    if negb (buffer_size c =? size (buffer g)) then
      let w1 := if enabled g then snd (wifi_csi_disable p w0) else w0 in
      let w2 := snd (g_buffer_deinit w1) in
      let (ok, w3) := g_buffer_init p (buffer_size c) w2 in
      if ok then (if enabled g then wifi_csi_enable p w3 else (ESP_OK, w3))
      else (ESP_ERR_NO_MEM, w3)
    else if enabled g then wifi_csi_enable p w0
    else (ESP_OK, w0).
Proof.
  unfold wifi_csi_config, bind, get_state, set_config, ret.
  cbv beta iota zeta. cbn [g_csi_state buffer config enabled trace].
  destruct (buffer_size c =? size (buffer (g_csi_state w)));
    cbn [negb]; [destruct (enabled (g_csi_state w)); reflexivity|].
  destruct (enabled (g_csi_state w)).
  - destruct (wifi_csi_disable p _) as [r1 w1]; cbn [snd].
    destruct (g_buffer_deinit w1) as [[] w2]; cbn [snd].
    destruct (g_buffer_init p (buffer_size c) w2) as [[] w3]; reflexivity.
  - destruct (g_buffer_deinit _) as [[] w2]; cbn [snd].
    destruct (g_buffer_init p (buffer_size c) w2) as [[] w3]; reflexivity.
Qed.

Lemma extends_with_refl p w : extends_with p w w.
Proof.
  split; [reflexivity|]. exists []. rewrite app_nil_r.
  split; [reflexivity|]. intros x [].
Qed.

Lemma extends_with_trans p w1 w2 w3 :
  extends_with p w1 w2 -> extends_with p w2 w3 -> extends_with p w1 w3.
Proof.
  intros (Hc1 & e1 & Ht1 & He1) (Hc2 & e2 & Ht2 & He2).
  split; [congruence|]. exists (e1 ++ e2).
  rewrite Ht2, Ht1, app_assoc. split; [reflexivity|].
  intros x Hin. apply in_app_or in Hin as [Hin|Hin].
  - apply He1, Hin.
  - rewrite <- Hc1. apply He2, Hin.
Qed.

Lemma wifi_csi_disable_extends p w :
  extends_with p w (snd (wifi_csi_disable p w)).
Proof.
  rewrite wifi_csi_disable_eq.
  destruct (enabled (g_csi_state w)); [|apply extends_with_refl].
  cbn zeta. destruct (esp_ok _); cbn; (split; [reflexivity|]);
    eexists; (split; [reflexivity|]); calls_by_cases.
Qed.

Lemma g_buffer_deinit_extends p w :
  extends_with p w (snd (g_buffer_deinit w)).
Proof.
  rewrite g_buffer_deinit_eq. cbn zeta.
  destruct (initialized (buffer (g_csi_state w))),
    (frames (buffer (g_csi_state w))); cbn; try apply extends_with_refl.
  split; [reflexivity|]. eexists; (split; [reflexivity|]); calls_by_cases.
Qed.

Lemma g_buffer_init_extends p sz w :
  extends_with p w (snd (g_buffer_init p sz w)).
Proof.
  rewrite g_buffer_init_eq. cbn zeta. unfold release_old.
  destruct (malloc_ret p _ _); cbn; (split; [reflexivity|]);
    destruct (initialized (buffer (g_csi_state w))),
      (frames (buffer (g_csi_state w))); cbn;
    eexists; (split; [rewrite <- ?app_assoc; reflexivity|]); calls_by_cases.
Qed.

Lemma wifi_csi_enable_extends p w :
  extends_with p w (snd (wifi_csi_enable p w)).
Proof.
  rewrite wifi_csi_enable_eq.
  destruct (enabled (g_csi_state w)); [apply extends_with_refl|].
  assert (forall w1, extends_with p w1 (snd (enable_driver_sequence p w1)))
    as Hseq.
  { intros w1. destruct (enable_driver_sequence p w1) as [r w'] eqn:E.
    apply enable_driver_sequence_spec in E as (_ & Hc & _ & _ & He).
    split; assumption. }
  destruct (initialized (buffer (g_csi_state w))); [apply Hseq|].
  pose proof (g_buffer_init_extends p
                (buffer_size (config (g_csi_state w))) w) as Hi.
  destruct (g_buffer_init p _ w) as [[] w1]; cbn in *; [|exact Hi].
  eapply extends_with_trans; [exact Hi | apply Hseq].
Qed.


(** The world once [wifi_csi_config] has copied the caller's record. *)
Lemma wifi_csi_config_extends p c w :
  extends_with p
    (mk_world
       (mk_state (buffer (g_csi_state w)) c (enabled (g_csi_state w)))
       (trace w))
    (snd (wifi_csi_config p (Some c) w)).
Proof.
  rewrite wifi_csi_config_eq. cbv zeta.
  set (w0 := mk_world _ (trace w)).
  destruct (negb (buffer_size c =? size (buffer (g_csi_state w)))).
  - set (w1 := if enabled (g_csi_state w) then snd (wifi_csi_disable p w0)
               else w0).
    assert (extends_with p w0 w1) as H1.
    { subst w1. destruct (enabled (g_csi_state w));
        [apply wifi_csi_disable_extends | apply extends_with_refl]. }
    pose proof (g_buffer_deinit_extends p w1) as H2.
    pose proof (g_buffer_init_extends p (buffer_size c)
                  (snd (g_buffer_deinit w1))) as H3.
    pose proof (extends_with_trans _ _ _ _ H1
                  (extends_with_trans _ _ _ _ H2 H3)) as H03.
    destruct (g_buffer_init p (buffer_size c) (snd (g_buffer_deinit w1)))
      as [[] w3]; cbn [snd] in *; [|exact H03].
    destruct (enabled (g_csi_state w)); [|exact H03].
    eapply extends_with_trans; [exact H03 | apply wifi_csi_enable_extends].
  - destruct (enabled (g_csi_state w));
      [apply wifi_csi_enable_extends | apply extends_with_refl].
Qed.

(** C8.  [wifi_csi_config] copies the caller's record into the stored
    configuration before anything else: whatever the call returns, also
    [ESP_ERR_NO_MEM] or a driver's failure code, the stored configuration
    afterwards is the caller's; every configuration the driver is handed
    during the call is already built from it; and the call behaves exactly as
    on a state whose stored configuration was the caller's from the start. *)
Theorem wifi_csi_config_stores_config_first
    (p : platform) (c : csi_config_t) (w : world) (r : esp_err_t) (w' : world) :
  wifi_csi_config p (Some c) w = (r, w') ->
  config (g_csi_state w') = c
  /\ (exists ext, trace w' = trace w ++ ext /\ config_calls_from p c ext)
  /\ wifi_csi_config p (Some c)
       (mk_world
          (mk_state (buffer (g_csi_state w)) c (enabled (g_csi_state w)))
          (trace w))
     = (r, w').
Proof.
  intros H. pose proof (wifi_csi_config_extends p c w) as (Hc & He).
  rewrite H in Hc, He. cbn [snd g_csi_state config trace] in Hc, He.
  split; [exact Hc|]. split; [exact He|].
  rewrite <- H, !wifi_csi_config_eq. reflexivity.
Qed.

Lemma wifi_csi_config_stores_config_first_witness :
  let w := sample_world true in
  let c := sample_config false 8 in
  let r := fst (wifi_csi_config platform_no_mem (Some c) w) in
  let w' := snd (wifi_csi_config platform_no_mem (Some c) w) in
  r = ESP_ERR_NO_MEM
  /\ config (g_csi_state w') = c
  /\ (exists ext,
        trace w' = trace w ++ ext /\ config_calls_from platform_no_mem c ext)
  /\ wifi_csi_config platform_no_mem (Some c)
       (mk_world
          (mk_state (buffer (g_csi_state w)) c (enabled (g_csi_state w)))
          (trace w))
     = (r, w').
Proof.
  intros w c r w'. split; [reflexivity|].
  apply (wifi_csi_config_stores_config_first platform_no_mem c w r w').
  reflexivity.
Defined.

(** C4 on the code.  With an unchanged [buffer_size] on an Enabled
    controller, [wifi_csi_config] stores the record, finds the controller
    "already enabled" inside [wifi_csi_enable] and returns [ESP_OK]: the
    buffer and its queued frames are kept, but no call at all reaches the
    driver, so the new options are not applied to it. *)
Theorem wifi_csi_config_same_size_skips_driver
    (p : platform) (c : csi_config_t) (w : world) :
  enabled (g_csi_state w) = true ->
  buffer_size c = size (buffer (g_csi_state w)) ->
  wifi_csi_config p (Some c) w
  = (ESP_OK, mk_world (mk_state (buffer (g_csi_state w)) c true) (trace w)).
Proof.
  intros En Hs. rewrite wifi_csi_config_eq. cbv zeta.
  rewrite Hs, Z.eqb_refl, En. cbn [negb].
  rewrite wifi_csi_enable_eq. reflexivity.
Qed.

Lemma wifi_csi_config_same_size_skips_driver_witness :
  let w := sample_world true in
  let c := sample_config false 4 in
  c <> config (g_csi_state w)
  /\ wifi_csi_config platform_ok (Some c) w
     = (ESP_OK, mk_world (mk_state (buffer (g_csi_state w)) c true) (trace w)).
Proof.
  intros w c. split; [discriminate|].
  apply (wifi_csi_config_same_size_skips_driver platform_ok c w); reflexivity.
Defined.

(** C10.  [wifi_csi_config] with a changed [buffer_size] on an Enabled
    controller whose driver refuses to stop the capture: the refusal is
    ignored.  The old block is freed and a fresh, empty buffer of the new
    size takes its place while the flag stays set; the closing
    [wifi_csi_enable] therefore returns [ESP_OK] at once, and the whole call
    reports [ESP_OK] having made exactly three calls: the refused stop, the
    [free] and the [malloc].  The driver configuration is not applied and the
    callback is not registered again. *)
Theorem wifi_csi_config_resize_ignores_failed_stop
    (p : platform) (c : csi_config_t) (w : world)
    (fs : list csi_frame_t) (junk : nat -> csi_frame_t) :
  enabled (g_csi_state w) = true ->
  initialized (buffer (g_csi_state w)) = true ->
  frames (buffer (g_csi_state w)) = Some fs ->
  buffer_size c <> size (buffer (g_csi_state w)) ->
  driver_ret p (trace w) (Esp_wifi_set_csi false) <> ESP_OK ->
  malloc_ret p (trace w ++ [Esp_wifi_set_csi false; Free])
    (uint32 (sizeof_csi_frame_t * buffer_size c)) = Some junk ->
  let n := uint32 (sizeof_csi_frame_t * buffer_size c) in
  let w' :=
    mk_world
      (mk_state (mk_buffer (Some (fresh_block junk n)) 0 0 (buffer_size c) 0 true)
         c true)
      (trace w ++ [Esp_wifi_set_csi false; Free; Malloc n]) in
  wifi_csi_config p (Some c) w = (ESP_OK, w')
  /\ queued (buffer (g_csi_state w')) = []
  /\ wifi_csi_enable p w' = (ESP_OK, w').
Proof.
  intros En Hi Hf Hs Hstop Hm n w'.
  split; [|split; [reflexivity | rewrite wifi_csi_enable_eq; reflexivity]].
  rewrite wifi_csi_config_eq. cbv zeta.
  apply Z.eqb_neq in Hs. rewrite Hs, En. cbn [negb].
  rewrite wifi_csi_disable_eq. cbn [g_csi_state enabled trace buffer config].
  cbv zeta. apply esp_ok_false in Hstop. rewrite Hstop. cbn [snd].
  rewrite g_buffer_deinit_eq. cbn [g_csi_state enabled trace buffer config].
  cbv zeta. rewrite Hi, Hf. cbn [snd].
  rewrite g_buffer_init_eq. cbn [g_csi_state enabled trace buffer config].
  cbv zeta. unfold release_old. cbn [initialized].
  rewrite <- app_assoc. cbn [app]. rewrite Hm.
  rewrite wifi_csi_enable_eq. cbn [g_csi_state enabled].
  subst w' n. rewrite <- app_assoc. reflexivity.
Qed.

Lemma wifi_csi_config_resize_ignores_failed_stop_witness :
  let w := sample_world true in
  let c := sample_config true 8 in
  let n := uint32 (sizeof_csi_frame_t * buffer_size c) in
  let w' :=
    mk_world
      (mk_state
         (mk_buffer (Some (fresh_block (fun _ => zero_frame) n)) 0 0
            (buffer_size c) 0 true)
         c true)
      (trace w ++ [Esp_wifi_set_csi false; Free; Malloc n]) in
  wifi_csi_config platform_stop_fails (Some c) w = (ESP_OK, w')
  /\ queued (buffer (g_csi_state w')) = []
  /\ wifi_csi_enable platform_stop_fails w' = (ESP_OK, w').
Proof.
  intros w c.
  apply (wifi_csi_config_resize_ignores_failed_stop platform_stop_fails c w
           [sample_frame 1; sample_frame 2; zero_frame; zero_frame]
           (fun _ => zero_frame));
    try reflexivity; discriminate.
Defined.

(** ** Allocation failure *)

Lemma csi_buffer_init_null p buf sz tr :
  malloc_ret p (release_old buf tr) (uint32 (sizeof_csi_frame_t * sz)) = None ->
  csi_buffer_init p buf sz tr
  = (false,
     mk_buffer None (head buf) (tail buf) (size buf) (dropped buf)
       (initialized buf),
     release_old buf tr ++ [Malloc (uint32 (sizeof_csi_frame_t * sz))]).
Proof. intros Hm. unfold csi_buffer_init. rewrite Hm. reflexivity. Qed.

(** C5 (as the code has it).  When the one allocation inside
    [csi_buffer_init] returns [NULL] (whatever the heap did before),
    [csi_buffer_init] returns [false]; called on a buffer that is not marked
    initialized (the only way the control functions call it) it leaves the
    buffer uninitialized, without storage and with its indices and counter
    as they were, hence consistent, and unchanged if it held no storage.
    [wifi_csi_init] and [wifi_csi_enable] then keep the module state as it
    was, the latter returning [ESP_ERR_NO_MEM].  [wifi_csi_config] with a
    changed size also returns [ESP_ERR_NO_MEM], but by then it has stored the
    new record, asked the driver to stop (if Enabled) and released the old
    buffer: the state it leaves is consistent (buffer uninitialized, flag
    cleared if the stop succeeded) without being the prior one. *)
Theorem csi_buffer_init_failure_on_first_init
    (p : platform) (buf : csi_buffer_t) (sz : Z) (tr : list call)
    (w : world) (c : csi_config_t) :
  (malloc_ret p (release_old buf tr) (uint32 (sizeof_csi_frame_t * sz)) = None ->
   fst (fst (csi_buffer_init p buf sz tr)) = false
   /\ (initialized buf = false ->
       let b' := snd (fst (csi_buffer_init p buf sz tr)) in
       initialized b' = false /\ frames b' = None
       /\ buffer_consistent b' = true
       /\ head b' = head buf /\ tail b' = tail buf /\ size b' = size buf
       /\ dropped b' = dropped buf
       /\ (frames buf = None -> b' = buf)))
  /\ (initialized (buffer (g_csi_state w)) = false ->
      frames (buffer (g_csi_state w)) = None ->
      malloc_ret p (trace w)
        (uint32 (sizeof_csi_frame_t * buffer_size (config (g_csi_state w))))
      = None ->
      g_csi_state (snd (wifi_csi_init p w)) = g_csi_state w
      /\ (enabled (g_csi_state w) = false ->
          fst (wifi_csi_enable p w) = ESP_ERR_NO_MEM
          /\ g_csi_state (snd (wifi_csi_enable p w)) = g_csi_state w))
  /\ (buffer_consistent (buffer (g_csi_state w)) = true ->
      buffer_size c <> size (buffer (g_csi_state w)) ->
      let b := buffer (g_csi_state w) in
      let tr1 := if enabled (g_csi_state w)
                 then trace w ++ [Esp_wifi_set_csi false] else trace w in
      let tr2 := if initialized b then tr1 ++ [Free] else tr1 in
      let n := uint32 (sizeof_csi_frame_t * buffer_size c) in
      malloc_ret p tr2 n = None ->
      let r := fst (wifi_csi_config p (Some c) w) in
      let w' := snd (wifi_csi_config p (Some c) w) in
      r = ESP_ERR_NO_MEM
      /\ config (g_csi_state w') = c
      /\ buffer (g_csi_state w')
         = mk_buffer None (head b) (tail b) (size b) (dropped b) false
      /\ buffer_consistent (buffer (g_csi_state w')) = true
      /\ enabled (g_csi_state w')
         = enabled (g_csi_state w)
           && negb (esp_ok (driver_ret p (trace w) (Esp_wifi_set_csi false)))
      /\ trace w' = tr2 ++ [Malloc n]).
Proof.
  split; [|split].
  - intros Hm. rewrite (csi_buffer_init_null p buf sz tr Hm). cbn.
    split; [reflexivity|]. intros Hi. unfold buffer_consistent. cbn.
    rewrite Hi. repeat split.
    intros Hf. destruct buf; cbn in *. subst. reflexivity.
  - intros Hi Hf Hm.
    assert (g_csi_state (snd (g_buffer_init p
                                (buffer_size (config (g_csi_state w))) w))
            = g_csi_state w
            /\ fst (g_buffer_init p (buffer_size (config (g_csi_state w))) w)
               = false) as [Hg Hok].
    { rewrite g_buffer_init_eq. cbv zeta. unfold release_old.
      rewrite Hi, Hm. cbn. rewrite ?Hi.
      split; [|reflexivity].
      destruct w as [[b cf en] tr']. destruct b. cbn in *. subst. reflexivity. }
    split.
    + unfold wifi_csi_init, bind, get_state, ret. rewrite Hi. cbn [negb].
      destruct (g_buffer_init p _ w) as [ok w1]. exact Hg.
    + intros En. rewrite wifi_csi_enable_eq, En, Hi.
      destruct (g_buffer_init p _ w) as [ok w1]. cbn in Hok, Hg. subst ok.
      split; [reflexivity | exact Hg].
  - intros Hcons Hs. cbv zeta. intros Hm.
    rewrite wifi_csi_config_eq. cbv zeta.
    apply Z.eqb_neq in Hs. rewrite Hs. cbn [negb].
    unfold buffer_consistent in Hcons.
    destruct (enabled (g_csi_state w)) eqn:En.
    + rewrite wifi_csi_disable_eq.
      cbn [g_csi_state buffer config enabled trace]. cbv zeta.
      destruct (esp_ok (driver_ret p (trace w) (Esp_wifi_set_csi false)));
        cbn [snd]; rewrite g_buffer_deinit_eq;
        cbn [g_csi_state buffer config enabled trace]; cbv zeta;
        destruct (initialized (buffer (g_csi_state w))) eqn:Hi;
        destruct (frames (buffer (g_csi_state w))) eqn:Hf;
        try discriminate Hcons;
        cbn [snd]; rewrite g_buffer_init_eq; cbv zeta; unfold release_old;
        cbn [g_csi_state buffer config enabled trace initialized frames];
        rewrite ?Hi, ?Hf, ?Hm;
        cbn; rewrite ?Hi, ?Hf, ?En; auto 10.
    + rewrite g_buffer_deinit_eq.
      cbn [g_csi_state buffer config enabled trace]. cbv zeta.
      destruct (initialized (buffer (g_csi_state w))) eqn:Hi;
        destruct (frames (buffer (g_csi_state w))) eqn:Hf;
        try discriminate Hcons;
        cbn [snd]; rewrite g_buffer_init_eq; cbv zeta; unfold release_old;
        cbn [g_csi_state buffer config enabled trace initialized frames];
        rewrite ?Hi, ?Hf, ?Hm;
        cbn; rewrite ?Hi, ?Hf, ?En; auto 10.
Qed.

Lemma csi_buffer_init_failure_on_first_init_witness :
  let p := platform_heap_once in
  let tr := [Malloc 21504; Free] in
  let w1 := mk_world g_csi_state_initial tr in
  let w2 := sample_world true in
  let c := sample_config true 8 in
  (* the heap served the first request and refuses the later ones *)
  (malloc_ret p [] 672 <> None
   /\ malloc_ret p (trace w2 ++ [Esp_wifi_set_csi false; Free]) 1344 = None)
  (* the ring buffer, after an earlier buffer was released *)
  /\ (fst (fst (csi_buffer_init p buffer_initial 128 tr)) = false
      /\ snd (fst (csi_buffer_init p buffer_initial 128 tr)) = buffer_initial)
  (* init and enable *)
  /\ (g_csi_state (snd (wifi_csi_init p w1)) = g_csi_state w1
      /\ fst (wifi_csi_enable p w1) = ESP_ERR_NO_MEM
      /\ g_csi_state (snd (wifi_csi_enable p w1)) = g_csi_state w1)
  (* a resize of an Enabled controller holding two frames *)
  /\ (let b := buffer (g_csi_state w2) in
      let r := fst (wifi_csi_config p (Some c) w2) in
      let w' := snd (wifi_csi_config p (Some c) w2) in
      queued b = [sample_frame 1; sample_frame 2]
      /\ enabled (g_csi_state w2) = true
      /\ r = ESP_ERR_NO_MEM
      /\ config (g_csi_state w') = c
      /\ buffer (g_csi_state w')
         = mk_buffer None (head b) (tail b) (size b) (dropped b) false
      /\ buffer_consistent (buffer (g_csi_state w')) = true
      /\ enabled (g_csi_state w') = false
      /\ trace w'
         = trace w2 ++ [Esp_wifi_set_csi false; Free; Malloc 1344]).
Proof.
  intros p tr w1 w2 c. cbv zeta.
  split; [split; [discriminate | reflexivity]|].
  destruct (csi_buffer_init_failure_on_first_init p buffer_initial 128 tr
              w1 c) as (A & B & _).
  destruct (csi_buffer_init_failure_on_first_init p buffer_initial 128 tr
              w2 c) as (_ & _ & C).
  split; [|split].
  - destruct (A eq_refl) as (A1 & A2). split; [exact A1|].
    apply (A2 eq_refl). reflexivity.
  - destruct (B eq_refl eq_refl eq_refl) as (B1 & B2).
    destruct (B2 eq_refl) as (B3 & B4). auto.
  - split; [reflexivity|]. split; [reflexivity|].
    assert (buffer_size c <> size (buffer (g_csi_state w2))) as Hs
      by discriminate.
    destruct (C eq_refl Hs eq_refl) as (C1 & C2 & C3 & C4 & C5 & C6).
    split; [exact C1|]. split; [exact C2|]. split; [exact C3|].
    split; [exact C4|]. split; [exact C5 | exact C6].
Defined.

(** C5 as stated fails on both counts.  Re-initializing a buffer that holds
    storage, with the heap exhausted, returns [false] but leaves the buffer
    marked initialized with a [NULL] block: the next write goes through
    [NULL].  And [wifi_csi_config] asking an Enabled controller with two
    queued frames for another size returns [ESP_ERR_NO_MEM] with the
    controller Disabled and its buffer gone: not the state it was in. *)
Lemma csi_buffer_init_failure_not_atomic :
  (let res := csi_buffer_init platform_no_mem
                (buffer_with2 (sample_frame 1) (sample_frame 2)) 8 [] in
   let b' := snd (fst res) in
   buffer_consistent (buffer_with2 (sample_frame 1) (sample_frame 2)) = true
   /\ fst (fst res) = false
   /\ initialized b' = true /\ frames b' = None
   /\ buffer_consistent b' = false
   /\ csi_buffer_write b' (sample_frame 3) = None)
  /\ (let w := sample_world true in
      let res := wifi_csi_config platform_no_mem
                   (Some (sample_config true 8)) w in
      let w' := snd res in
      queued (buffer (g_csi_state w)) = [sample_frame 1; sample_frame 2]
      /\ fst res = ESP_ERR_NO_MEM
      /\ enabled (g_csi_state w) = true
      /\ enabled (g_csi_state w') = false
      /\ initialized (buffer (g_csi_state w')) = false
      /\ frames (buffer (g_csi_state w')) = None
      /\ g_csi_state w' <> g_csi_state w).
Proof.
  split; cbv zeta.
  - repeat split; reflexivity.
  - repeat split; try reflexivity. vm_compute. discriminate.
Qed.

(** The scenario of the specification: capacity 4, writes A, B, C, D, then
    four reads. *)
Example capacity_4_scenario :
  let b0 := mk_buffer (Some (replicate 4 zero_frame)) 0 0 4 0 true in
  exists b1 b2 b3,
    write_all b0 [sample_frame 1; sample_frame 2; sample_frame 3]
    = Some ([true; true; true], b1)
    /\ dropped b1 = 0
    /\ csi_buffer_write b1 (sample_frame 4) = Some (false, b2)
    /\ dropped b2 = 1
    /\ queued b2 = [sample_frame 1; sample_frame 2; sample_frame 3]
    /\ read_n 4 b2 zero_frame
       = Some ([(true, sample_frame 1); (true, sample_frame 2);
                (true, sample_frame 3); (false, sample_frame 3)], b3)
    /\ csi_buffer_available b3 = 0.
Proof.
  cbv zeta. do 3 eexists.
  split; [vm_compute; reflexivity|]. split; [reflexivity|].
  split; [vm_compute; reflexivity|]. split; [reflexivity|].
  split; [reflexivity|]. split; [vm_compute; reflexivity | reflexivity].
Qed.

(** * Further properties of the ring buffer *)

Lemma csi_buffer_write_keeps_ok b f :
  buffer_ok b = true ->
  exists ok b', csi_buffer_write b f = Some (ok, b') /\ buffer_ok b' = true.
Proof.
  intros H.
  destruct (Z.eq_dec ((head b + 1) mod size b) (tail b)) as [Hfull|Hroom].
  - exists false. eexists.
    split; [apply csi_buffer_write_full; assumption|].
    apply drop_counted_ok; exact H.
  - destruct (csi_buffer_write_room b f H Hroom) as (b' & Hw & H' & _).
    exists true, b'. auto.
Qed.

(** X1.  On a well-formed buffer neither [csi_buffer_write] nor [csi_buffer_read]
    can run into undefined behaviour, and both leave a well-formed buffer of
    the same size. *)
Theorem csi_buffer_ops_keep_invariant
    (b : csi_buffer_t) (f dst : csi_frame_t) :
  buffer_ok b = true ->
  (exists ok b',
     csi_buffer_write b f = Some (ok, b')
     /\ buffer_ok b' = true /\ size b' = size b)
  /\ (exists ok x b',
        csi_buffer_read b dst = Some (ok, x, b')
        /\ buffer_ok b' = true /\ size b' = size b).
Proof.
  intros H. split.
  - destruct (Z.eq_dec ((head b + 1) mod size b) (tail b)) as [Hfull|Hroom].
    + exists false. eexists.
      split; [apply csi_buffer_write_full; assumption|].
      split; [apply drop_counted_ok; exact H | reflexivity].
    + destruct (csi_buffer_write_room b f H Hroom)
        as (b' & Hw & H' & _ & _ & Hs & _).
      exists true, b'. auto.
  - destruct (Z.eq_dec (head b) (tail b)) as [He|Hne].
    + exists false, dst, b. rewrite csi_buffer_read_empty by exact He. auto.
    + destruct (csi_buffer_read_some b dst H Hne) as (x & b' & Hr & _ & H' & E).
      exists true, x, b'. rewrite E at 3. auto.
Qed.

Lemma csi_buffer_ops_keep_invariant_witness :
  let b := mk_buffer (Some (replicate 4 zero_frame)) 3 2 4 0 true in
  (exists ok b',
     csi_buffer_write b (sample_frame 1) = Some (ok, b')
     /\ buffer_ok b' = true /\ size b' = size b)
  /\ (exists ok x b',
        csi_buffer_read b zero_frame = Some (ok, x, b')
        /\ buffer_ok b' = true /\ size b' = size b).
Proof.
  intros b.
  apply (csi_buffer_ops_keep_invariant b (sample_frame 1) zero_frame).
  reflexivity.
Defined.

(** X2.  [available ()] never underflows and counts what can be read: on a
    well-formed buffer it lies between 0 and [size - 1]; exactly that many
    consecutive reads succeed and the next one reports no data; it is 0
    exactly when the buffer is empty and [size - 1] exactly when it is
    full. *)
Theorem csi_buffer_available_bounds (b : csi_buffer_t) (dst : csi_frame_t) :
  buffer_ok b = true ->
  0 <= csi_buffer_available b <= size b - 1
  /\ (exists rs b',
        read_n (Z.to_nat (csi_buffer_available b)) b dst = Some (rs, b')
        /\ length rs = Z.to_nat (csi_buffer_available b)
        /\ Forall (fun x => fst x = true) rs
        /\ forall d, csi_buffer_read b' d = Some (false, d, b'))
  /\ (csi_buffer_is_empty b = true <-> csi_buffer_available b = 0)
  /\ (csi_buffer_is_full b = Some true
      <-> csi_buffer_available b = size b - 1).
Proof.
  intros H. pose proof (available_dist b H) as Ha.
  pose proof (buffer_ok_inv b H) as (_ & _ & _ & Hh & Ht & _).
  pose proof (dist_range (size b) (tail b) (head b) Ht Hh).
  split; [lia|]. split; [|split].
  - pose proof (queued_length b H) as Hl.
    replace (Z.to_nat (csi_buffer_available b)) with (length (queued b))
      by lia.
    destruct (read_n_queued (length (queued b)) b dst H (Nat.le_refl _))
      as (b' & Hr & Hb' & Hq' & _).
    rewrite firstn_all in Hr. rewrite drop_all in Hq'.
    exists (pair true <$> queued b), b'.
    split; [exact Hr|]. split; [apply length_fmap|]. split.
    + apply Forall_fmap, Forall_forall. intros x _. reflexivity.
    + intros d. apply csi_buffer_read_empty, queued_nil_empty; assumption.
  - rewrite is_empty_spec, Ha. symmetry. apply dist_zero; lia.
  - rewrite (is_full_spec b H), Ha. apply dist_full; lia.
Qed.

Lemma csi_buffer_available_bounds_witness :
  let b := mk_buffer (Some (replicate 4 zero_frame)) 1 3 4 0 true in
  csi_buffer_available b = 2
  /\ 0 <= csi_buffer_available b <= size b - 1
  /\ (exists rs b',
        read_n (Z.to_nat (csi_buffer_available b)) b (sample_frame 9)
        = Some (rs, b')
        /\ length rs = Z.to_nat (csi_buffer_available b)
        /\ Forall (fun x => fst x = true) rs
        /\ forall d, csi_buffer_read b' d = Some (false, d, b'))
  /\ (csi_buffer_is_empty b = true <-> csi_buffer_available b = 0)
  /\ (csi_buffer_is_full b = Some true
      <-> csi_buffer_available b = size b - 1).
Proof.
  intros b. split; [reflexivity|].
  apply (csi_buffer_available_bounds b (sample_frame 9)). reflexivity.
Defined.

(** X3.  Bookkeeping of [available ()]: a write that returns [true] raises it by
    exactly one, a read that returns [true] lowers it by exactly one, and a
    call that returns [false] (buffer full, buffer empty) leaves it alone. *)
Theorem csi_buffer_available_step
    (b : csi_buffer_t) (f dst : csi_frame_t) :
  buffer_ok b = true ->
  (forall ok b',
     csi_buffer_write b f = Some (ok, b') ->
     csi_buffer_available b'
     = csi_buffer_available b + (if ok then 1 else 0))
  /\ (forall ok x b',
        csi_buffer_read b dst = Some (ok, x, b') ->
        csi_buffer_available b'
        = csi_buffer_available b - (if ok then 1 else 0)).
Proof.
  intros H. split.
  - intros ok b' Hw.
    destruct (Z.eq_dec ((head b + 1) mod size b) (tail b)) as [Hfull|Hroom].
    + rewrite (csi_buffer_write_full b f H Hfull) in Hw.
      injection Hw as <- <-. rewrite Z.add_0_r. reflexivity.
    + destruct (csi_buffer_write_room b f H Hroom)
        as (b1 & Hw1 & H1 & Hq & _).
      rewrite Hw1 in Hw. injection Hw as <- <-.
      rewrite <- (queued_length b H), <- (queued_length b1 H1), Hq, length_app.
      cbn [length]. lia.
  - intros ok x b' Hr.
    destruct (Z.eq_dec (head b) (tail b)) as [He|Hne].
    + rewrite (csi_buffer_read_empty b dst He) in Hr.
      injection Hr as <- <- <-. rewrite Z.sub_0_r. reflexivity.
    + destruct (csi_buffer_read_some b dst H Hne)
        as (x1 & b1 & Hr1 & Hq & H1 & _).
      rewrite Hr1 in Hr. injection Hr as <- <- <-.
      rewrite <- (queued_length b H), <- (queued_length b1 H1), Hq.
      cbn [length]. lia.
Qed.

Lemma csi_buffer_available_step_witness :
  let b := mk_buffer (Some (replicate 4 zero_frame)) 0 3 4 0 true in
  (forall ok b',
     csi_buffer_write b (sample_frame 1) = Some (ok, b') ->
     csi_buffer_available b'
     = csi_buffer_available b + (if ok then 1 else 0))
  /\ (forall ok x b',
        csi_buffer_read b zero_frame = Some (ok, x, b') ->
        csi_buffer_available b'
        = csi_buffer_available b - (if ok then 1 else 0)).
Proof.
  intros b.
  apply (csi_buffer_available_step b (sample_frame 1) zero_frame).
  reflexivity.
Defined.

(** X4.  FIFO order wherever the indices stand, also across the wrap-around: on
    any well-formed buffer, frames that fit are all accepted, and reading
    everything back yields the frames that were already queued followed by
    the new ones, each exactly as written; the buffer is then empty and the
    drop counter untouched. *)
Theorem csi_buffer_fifo_any_position
    (b : csi_buffer_t) (fs : list csi_frame_t) (dst : csi_frame_t) :
  buffer_ok b = true ->
  csi_buffer_available b + Z.of_nat (length fs) <= size b - 1 ->
  exists b1 b2,
    write_all b fs = Some (replicate (length fs) true, b1)
    /\ read_n (length (queued b) + length fs) b1 dst
       = Some (pair true <$> (queued b ++ fs), b2)
    /\ csi_buffer_is_empty b2 = true
    /\ dropped b2 = dropped b.
Proof.
  intros H Hfit. rewrite <- (queued_length b H) in Hfit.
  destruct (write_all_room fs b H Hfit) as (b1 & Hw & H1 & Hq1 & Hd1 & _).
  destruct (read_n_queued (length (queued b) + length fs) b1 dst H1)
    as (b2 & Hr & H2 & Hq2 & _ & Hd2 & _).
  { rewrite Hq1, length_app. lia. }
  exists b1, b2. split; [exact Hw|].
  assert (length (queued b) + length fs = length (queued b1))%nat as El
    by (rewrite Hq1, length_app; reflexivity).
  rewrite El in Hr, Hq2. rewrite firstn_all in Hr. rewrite drop_all in Hq2.
  rewrite El, Hr, Hq1. split; [reflexivity|].
  split; [apply is_empty_spec, queued_nil_empty; assumption | congruence].
Qed.

Lemma csi_buffer_fifo_any_position_witness :
  let b := mk_buffer
             (Some [zero_frame; zero_frame; sample_frame 1; sample_frame 2])
             3 2 4 9 true in
  let fs := [sample_frame 3; sample_frame 4] in
  queued b = [sample_frame 1]
  /\ exists b1 b2,
       write_all b fs = Some (replicate (length fs) true, b1)
       /\ read_n (length (queued b) + length fs) b1 zero_frame
          = Some (pair true <$> (queued b ++ fs), b2)
       /\ csi_buffer_is_empty b2 = true
       /\ dropped b2 = dropped b.
Proof.
  intros b fs. split; [reflexivity|].
  apply (csi_buffer_fifo_any_position b fs zero_frame);
    [reflexivity | vm_compute; discriminate].
Defined.

(** X5.  The single-writer discipline, on any buffer at all: [csi_buffer_write]
    never moves [tail] and, when it returns [false], touches neither the
    slots nor [head]; [csi_buffer_read] never touches [head], [dropped] or
    the slots and, when it returns [false], changes nothing, the caller's
    destination included. *)
Theorem csi_buffer_index_ownership
    (b : csi_buffer_t) (f dst : csi_frame_t) :
  (forall ok b',
     csi_buffer_write b f = Some (ok, b') ->
     tail b' = tail b /\ size b' = size b
     /\ initialized b' = initialized b
     /\ (ok = true -> dropped b' = dropped b)
     /\ (ok = false -> frames b' = frames b /\ head b' = head b))
  /\ (forall ok x b',
        csi_buffer_read b dst = Some (ok, x, b') ->
        head b' = head b /\ dropped b' = dropped b
        /\ frames b' = frames b /\ size b' = size b
        /\ initialized b' = initialized b
        /\ (ok = false -> b' = b /\ x = dst)).
Proof.
  split.
  - intros ok b'. unfold csi_buffer_write.
    destruct (initialized b) eqn:Hi; cbn [negb].
    2: { intros [= <- <-]. auto 10. }
    destruct (size b =? 0); [discriminate|].
    destruct (_ =? tail b).
    { intros [= <- <-]. cbn. repeat split; auto; discriminate. }
    destruct (frames b) as [fs|]; [|discriminate].
    destruct (slot_set fs (head b) f); [|discriminate].
    intros [= <- <-]. cbn. repeat split; auto; discriminate.
  - intros ok x b'. unfold csi_buffer_read.
    destruct (negb (initialized b) || csi_buffer_is_empty b).
    { intros [= <- <- <-]. auto 10. }
    destruct (frames b) as [fs|] eqn:Hf; [|discriminate].
    destruct (slot_get fs (tail b)); [|discriminate].
    destruct (size b =? 0); [discriminate|].
    intros [= <- <- <-]. cbn. repeat split; auto; discriminate.
Qed.

(** X6.  [csi_buffer_deinit] frees the block at most once: a second call changes
    nothing and frees nothing.  After it, a buffer whose flag and storage
    agreed is uninitialized without storage, a write is ignored without being
    counted as a drop, and a read reports no data. *)
Theorem csi_buffer_deinit_idempotent
    (b : csi_buffer_t) (tr : list call) (f dst : csi_frame_t) :
  let b1 := fst (csi_buffer_deinit b tr) in
  let tr1 := snd (csi_buffer_deinit b tr) in
  csi_buffer_deinit b1 tr1 = (b1, tr1)
  /\ (tr1 = tr \/ tr1 = tr ++ [Free])
  /\ (initialized b = false -> b1 = b /\ tr1 = tr)
  /\ (buffer_consistent b = true ->
      initialized b1 = false
      /\ (initialized b = true -> frames b1 = None /\ tr1 = tr ++ [Free])
      /\ csi_buffer_write b1 f = Some (false, b1)
      /\ csi_buffer_read b1 dst = Some (false, dst, b1)
      /\ csi_buffer_available b1 = 0).
Proof.
  unfold csi_buffer_deinit, buffer_consistent.
  destruct (initialized b) eqn:Hi, (frames b) eqn:Hf; cbn;
    rewrite ?Hi, ?Hf; cbn; repeat split; auto; try discriminate.
  all: try intros _.
  all: unfold csi_buffer_write, csi_buffer_read, csi_buffer_available;
    cbn; rewrite ?Hi; reflexivity.
Qed.

(** * The callback *)

Lemma info_ok_inv info :
  info_ok info = true ->
  length (info_mac info) = 6%nat
  /\ 0 <= info_len info <= 65535
  /\ forall src, info_buf info = Some src ->
                 info_len info <= Z.of_nat (length src).
Proof.
  unfold info_ok. rewrite !andb_true_iff.
  intros [[[Hm Hl1] Hl2] Hb]. apply Nat.eqb_eq in Hm.
  split; [exact Hm|]. split; [lia|].
  intros src Hs. rewrite Hs in Hb. lia.
Qed.

Lemma memcpy_bytes_Some dst src n :
  0 <= n <= Z.of_nat (length src) -> n <= Z.of_nat (length dst) ->
  memcpy_bytes dst src n
  = Some (take (Z.to_nat n) src ++ drop (Z.to_nat n) dst).
Proof.
  intros H1 H2. unfold memcpy_bytes.
  replace ((0 <=? n) && (n <=? Z.of_nat (length src))
           && (n <=? Z.of_nat (length dst))) with true
    by (symmetry; rewrite !andb_true_iff; lia).
  reflexivity.
Qed.

(** X7.  The frame the callback stores: the payload is cut to
    [CSI_MAX_DATA_LEN] bytes, never more; [len] is the number of bytes kept;
    [data] always has 128 entries, the first [len] of them the first [len]
    payload bytes and all others zero; the address is the driver's and the
    time stamp is the timer value modulo [2^32]. *)
Theorem csi_frame_of_info_truncates
    (t : idf_target) (info : wifi_csi_info_t) (now : Z) :
  info_ok info = true ->
  exists frame,
    csi_frame_of_info t info now = Some frame
    /\ len frame = Z.min (info_len info) CSI_MAX_DATA_LEN
    /\ length (data frame) = 128%nat
    /\ (forall src, info_buf info = Some src ->
          take (Z.to_nat (len frame)) (data frame)
          = take (Z.to_nat (len frame)) src)
    /\ (info_buf info = None -> data frame = replicate 128 0)
    /\ drop (Z.to_nat (len frame)) (data frame)
       = replicate (128 - Z.to_nat (len frame)) 0
    /\ mac frame = info_mac info
    /\ rssi frame = rx_rssi info
    /\ timestamp_us frame = now mod 2 ^ 32.
Proof.
  intros H. apply info_ok_inv in H as (Hm & Hl & Hb).
  unfold csi_frame_of_info.
  rewrite memcpy_bytes_Some by (rewrite ?length_replicate; lia).
  set (flen := if info_len info >? CSI_MAX_DATA_LEN then CSI_MAX_DATA_LEN
               else info_len info).
  assert (flen = Z.min (info_len info) CSI_MAX_DATA_LEN /\ 0 <= flen <= 128)
    as [Efl Hfl].
  { subst flen. unfold CSI_MAX_DATA_LEN.
    destruct (Z.gtb_spec (info_len info) 128); lia. }
  assert (take 6 (info_mac info) ++ drop 6 (replicate 6 0) = info_mac info)
    as Emac.
  { cbn [drop replicate]. rewrite app_nil_r. rewrite <- Hm.
    apply firstn_all. }
  change (Z.to_nat 6) with 6%nat. rewrite Emac.
  change (Z.to_nat CSI_MAX_DATA_LEN) with 128%nat.
  destruct (info_buf info) as [src|] eqn:Hs.
  - specialize (Hb src eq_refl).
    destruct (Z.gtb_spec flen 0) as [Hpos|Hzero].
    + rewrite memcpy_bytes_Some
        by (rewrite ?length_replicate; subst flen; unfold CSI_MAX_DATA_LEN in *;
            destruct (Z.gtb_spec (info_len info) 128); lia).
      eexists. split; [reflexivity|]. cbn [len data mac rssi timestamp_us].
      assert (length (take (Z.to_nat flen) src) = Z.to_nat flen) as Etl
        by (rewrite length_take; subst flen; unfold CSI_MAX_DATA_LEN in *;
            destruct (Z.gtb_spec (info_len info) 128); lia).
      split; [exact Efl|]. split.
      { rewrite length_app, Etl, length_drop, length_replicate. lia. }
      split.
      { intros src' [= <-]. rewrite take_app_length'; [reflexivity | symmetry; exact Etl]. }
      split; [discriminate|]. split; [|auto].
      rewrite drop_app_length' by (symmetry; exact Etl). apply drop_replicate.
    + assert (flen = 0) as E0 by lia.
      eexists. split; [reflexivity|]. cbn [len data mac rssi timestamp_us].
      rewrite E0. split; [lia|]. split; [apply length_replicate|].
      split; [reflexivity|]. split; [discriminate|]. auto.
  - eexists. split; [reflexivity|]. cbn [len data mac rssi timestamp_us].
    split; [exact Efl|]. split; [apply length_replicate|].
    split; [discriminate|]. split; [reflexivity|]. split; [|auto].
    apply drop_replicate.
Qed.

Lemma csi_frame_of_info_truncates_witness :
  let info := sample_info 300 7 in
  exists frame,
    csi_frame_of_info TARGET_LEGACY info 5000000000 = Some frame
    /\ len frame = Z.min (info_len info) CSI_MAX_DATA_LEN
    /\ length (data frame) = 128%nat
    /\ (forall src, info_buf info = Some src ->
          take (Z.to_nat (len frame)) (data frame)
          = take (Z.to_nat (len frame)) src)
    /\ (info_buf info = None -> data frame = replicate 128 0)
    /\ drop (Z.to_nat (len frame)) (data frame)
       = replicate (128 - Z.to_nat (len frame)) 0
    /\ mac frame = info_mac info
    /\ rssi frame = rx_rssi info
    /\ timestamp_us frame = 5000000000 mod 2 ^ 32.
Proof.
  intros info.
  apply (csi_frame_of_info_truncates TARGET_LEGACY info 5000000000).
  reflexivity.
Defined.

(** ** The module invariant *)

Lemma state_ok_inv w :
  state_ok w = true ->
  (buffer_ok (buffer (g_csi_state w)) = true
   \/ (initialized (buffer (g_csi_state w)) = false
       /\ frames (buffer (g_csi_state w)) = None))
  /\ 1 <= buffer_size (config (g_csi_state w)) <= 1024.
Proof.
  unfold state_ok. cbv zeta. rewrite !andb_true_iff, orb_true_iff.
  intros [[Hb H1] H2]. split; [|lia].
  destruct Hb as [Hb|Hb]; [left; exact Hb|right].
  apply andb_true_iff in Hb as [Hi Hf].
  destruct (initialized _); [discriminate|].
  destruct (frames _); [discriminate|]. auto.
Qed.

Lemma state_ok_intro w :
  (buffer_ok (buffer (g_csi_state w)) = true
   \/ (initialized (buffer (g_csi_state w)) = false
       /\ frames (buffer (g_csi_state w)) = None)) ->
  1 <= buffer_size (config (g_csi_state w)) <= 1024 ->
  state_ok w = true.
Proof.
  intros Hb Hc. unfold state_ok. cbv zeta.
  rewrite !andb_true_iff, orb_true_iff. split; [split|]; try lia.
  destruct Hb as [Hb|[Hi Hf]]; [left; exact Hb|right].
  rewrite Hi, Hf. reflexivity.
Qed.

(** The invariant only looks at the buffer and the configuration. *)
Lemma state_ok_same w w' :
  buffer (g_csi_state w') = buffer (g_csi_state w) ->
  config (g_csi_state w') = config (g_csi_state w) ->
  state_ok w' = state_ok w.
Proof. unfold state_ok. intros -> ->. reflexivity. Qed.

Lemma g_buffer_init_state_ok p w :
  state_ok w = true ->
  initialized (buffer (g_csi_state w)) = false ->
  state_ok (snd (g_buffer_init p (buffer_size (config (g_csi_state w))) w))
  = true.
Proof.
  intros H Hi. apply state_ok_inv in H as (Hb & Hc).
  rewrite g_buffer_init_eq. cbv zeta.
  assert (sizeof_csi_frame_t * buffer_size (config (g_csi_state w))
          <= UINT32_MAX) as Hfit
    by (unfold sizeof_csi_frame_t, UINT32_MAX; lia).
  rewrite (uint32_small (sizeof_csi_frame_t * _))
    by (unfold sizeof_csi_frame_t in *; lia).
  destruct (malloc_ret p _ _) as [junk|]; cbn [snd];
    apply state_ok_intro; cbn [g_csi_state buffer config]; try lia.
  - left. apply fresh_buffer_ok; lia.
  - right. cbn. auto.
Qed.

Lemma enable_driver_sequence_state_ok p w :
  state_ok (snd (enable_driver_sequence p w)) = state_ok w.
Proof.
  destruct (enable_driver_sequence p w) as [r w'] eqn:E.
  apply enable_driver_sequence_spec in E as (Hb & Hc & _).
  apply state_ok_same; assumption.
Qed.

Lemma wifi_csi_enable_state_ok p w :
  state_ok w = true -> state_ok (snd (wifi_csi_enable p w)) = true.
Proof.
  intros H. rewrite wifi_csi_enable_eq.
  destruct (enabled (g_csi_state w)); [exact H|].
  destruct (initialized (buffer (g_csi_state w))) eqn:Hi.
  - rewrite enable_driver_sequence_state_ok. exact H.
  - pose proof (g_buffer_init_state_ok p w H Hi) as H1.
    destruct (g_buffer_init p _ w) as [[] w1]; cbn [snd] in *; [|exact H1].
    rewrite enable_driver_sequence_state_ok. exact H1.
Qed.

Lemma wifi_csi_disable_frame p w :
  buffer (g_csi_state (snd (wifi_csi_disable p w))) = buffer (g_csi_state w)
  /\ config (g_csi_state (snd (wifi_csi_disable p w)))
     = config (g_csi_state w).
Proof.
  rewrite wifi_csi_disable_eq.
  destruct (enabled (g_csi_state w)); [|auto].
  cbv zeta. destruct (esp_ok _); auto.
Qed.

Lemma wifi_csi_disable_state_ok p w :
  state_ok (snd (wifi_csi_disable p w)) = state_ok w.
Proof.
  destruct (wifi_csi_disable_frame p w). apply state_ok_same; assumption.
Qed.

(** After [csi_buffer_deinit] on a state satisfying the invariant the buffer
    is uninitialized and owns nothing. *)
Lemma g_buffer_deinit_released w :
  state_ok w = true ->
  let w' := snd (g_buffer_deinit w) in
  initialized (buffer (g_csi_state w')) = false
  /\ frames (buffer (g_csi_state w')) = None
  /\ config (g_csi_state w') = config (g_csi_state w)
  /\ enabled (g_csi_state w') = enabled (g_csi_state w)
  /\ state_ok w' = true.
Proof.
  intros H. pose proof (state_ok_inv w H) as (Hb & Hc).
  cbv zeta. rewrite g_buffer_deinit_eq. cbv zeta.
  destruct Hb as [Hb|[Hi Hf]].
  - apply buffer_ok_inv in Hb as (Hi & _ & (fs & Hf & _) & _).
    rewrite Hi, Hf. cbn. repeat split.
    apply state_ok_intro; cbn; [right; auto | lia].
  - rewrite Hi. cbn. rewrite Hi, Hf. auto.
Qed.

Lemma wifi_csi_deinit_eq p w :
  wifi_csi_deinit p w
  = g_buffer_deinit
      (if enabled (g_csi_state w) then snd (wifi_csi_disable p w) else w).
Proof.
  unfold wifi_csi_deinit, bind, get_state, ret.
  destruct (enabled (g_csi_state w)); [|reflexivity].
  destruct (wifi_csi_disable p w); reflexivity.
Qed.

Lemma wifi_csi_config_state_ok p c w :
  state_ok w = true -> 1 <= buffer_size c <= 1024 ->
  state_ok (snd (wifi_csi_config p (Some c) w)) = true.
Proof.
  intros H Hc. pose proof (state_ok_inv w H) as (Hb & _).
  rewrite wifi_csi_config_eq. cbv zeta.
  set (w0 := mk_world _ (trace w)).
  assert (state_ok w0 = true) as H0 by (apply state_ok_intro; assumption).
  destruct (negb (buffer_size c =? size (buffer (g_csi_state w)))).
  - set (w1 := if enabled (g_csi_state w) then snd (wifi_csi_disable p w0)
               else w0).
    assert (state_ok w1 = true /\ config (g_csi_state w1) = c) as [H1 Hc1].
    { subst w1. destruct (enabled (g_csi_state w)); [|auto].
      rewrite wifi_csi_disable_state_ok. split; [exact H0|].
      apply (wifi_csi_disable_frame p w0). }
    destruct (g_buffer_deinit_released w1 H1) as (Hi2 & Hf2 & Hc2 & _ & H2).
    set (w2 := snd (g_buffer_deinit w1)) in *.
    pose proof (g_buffer_init_state_ok p w2 H2 Hi2) as H3.
    rewrite Hc2, Hc1 in H3.
    destruct (g_buffer_init p (buffer_size c) w2) as [[] w3];
      cbn [snd] in *; [|exact H3].
    destruct (enabled (g_csi_state w)); [|exact H3].
    apply wifi_csi_enable_state_ok, H3.
  - destruct (enabled (g_csi_state w)); [|exact H0].
    apply wifi_csi_enable_state_ok, H0.
Qed.

Lemma csi_frame_of_info_Some t info now :
  info_ok info = true -> exists frame, csi_frame_of_info t info now = Some frame.
Proof.
  intros H. apply info_ok_inv in H as (Hm & Hl & Hb).
  unfold csi_frame_of_info.
  rewrite memcpy_bytes_Some by (rewrite ?length_replicate; lia).
  destruct (info_buf info) as [src|]; [|eauto].
  destruct (_ >? 0); [|eauto].
  rewrite memcpy_bytes_Some; [eauto| |];
    rewrite ?length_replicate; specialize (Hb src eq_refl);
    unfold CSI_MAX_DATA_LEN in *;
    destruct (Z.gtb_spec (info_len info) 128); lia.
Qed.

(** X8.  What one callback does.  It never touches the configuration, the flag or
    the outside world (no allocation, no driver call).  While the controller
    is Disabled or has no buffer it changes nothing at all.  Otherwise the
    frame built from [info] becomes the newest queued frame, or, if the
    buffer is full, is dropped and counted, the queued frames staying as they
    were.  In every case the module invariant is kept. *)
Theorem wifi_csi_rx_cb_effect
    (p : platform) (info : wifi_csi_info_t) (now : Z) (w : world) :
  info_ok info = true ->
  state_ok w = true ->
  exists w',
    wifi_csi_rx_cb p info now w = Some w'
    /\ state_ok w' = true
    /\ config (g_csi_state w') = config (g_csi_state w)
    /\ enabled (g_csi_state w') = enabled (g_csi_state w)
    /\ trace w' = trace w
    /\ (enabled (g_csi_state w) = false
        \/ initialized (buffer (g_csi_state w)) = false -> w' = w)
    /\ (enabled (g_csi_state w) = true ->
        initialized (buffer (g_csi_state w)) = true ->
        exists frame,
          csi_frame_of_info (target p) info now = Some frame
          /\ ((csi_buffer_is_full (buffer (g_csi_state w)) = Some true
               /\ queued (buffer (g_csi_state w'))
                  = queued (buffer (g_csi_state w))
               /\ dropped (buffer (g_csi_state w'))
                  = uint32 (dropped (buffer (g_csi_state w)) + 1))
              \/ (csi_buffer_is_full (buffer (g_csi_state w)) = Some false
                  /\ queued (buffer (g_csi_state w'))
                     = queued (buffer (g_csi_state w)) ++ [frame]
                  /\ dropped (buffer (g_csi_state w'))
                     = dropped (buffer (g_csi_state w))))).
Proof.
  intros Hinfo H. pose proof (state_ok_inv w H) as (Hb & Hc).
  unfold wifi_csi_rx_cb. cbv zeta.
  destruct (enabled (g_csi_state w)) eqn:En; cbn [negb orb].
  2: { exists w. repeat split; auto. discriminate. }
  destruct (initialized (buffer (g_csi_state w))) eqn:Hi; cbn [negb].
  2: { exists w. repeat split; auto. discriminate. }
  destruct Hb as [Hb|[Hi' _]]; [|congruence].
  destruct (csi_frame_of_info_Some (target p) info now Hinfo) as [frame Hfr].
  rewrite Hfr.
  destruct (Z.eq_dec ((head (buffer (g_csi_state w)) + 1)
                        mod size (buffer (g_csi_state w)))
              (tail (buffer (g_csi_state w)))) as [Hfull|Hroom].
  - rewrite (csi_buffer_write_full _ frame Hb Hfull).
    eexists. split; [reflexivity|]. cbn [g_csi_state buffer config enabled trace].
    split; [apply state_ok_intro; cbn; [left; apply drop_counted_ok, Hb|lia]|].
    repeat split; try (intros [?|?]; discriminate).
    intros _ _. exists frame. split; [reflexivity|]. left.
    split; [apply is_full_spec; assumption|]. split; reflexivity.
  - destruct (csi_buffer_write_room _ frame Hb Hroom)
      as (b' & Hw & Hb' & Hq & Hd & _).
    rewrite Hw.
    eexists. split; [reflexivity|]. cbn [g_csi_state buffer config enabled trace].
    split; [apply state_ok_intro; cbn; [left; exact Hb'|lia]|].
    repeat split; try (intros [?|?]; discriminate).
    intros _ _. exists frame. split; [reflexivity|]. right.
    split; [|split; assumption].
    destruct (csi_buffer_is_full (buffer (g_csi_state w))) as [[]|] eqn:Ef.
    + apply is_full_spec in Ef; [contradiction | exact Hb].
    + reflexivity.
    + unfold csi_buffer_is_full in Ef.
      apply buffer_ok_inv in Hb as (_ & Hs & _).
      destruct (Z.eqb_spec (size (buffer (g_csi_state w))) 0);
        [lia | discriminate].
Qed.

Lemma wifi_csi_rx_cb_effect_witness :
  let w := sample_world true in
  let info := sample_info 300 7 in
  exists w',
    wifi_csi_rx_cb platform_ok info 1000 w = Some w'
    /\ state_ok w' = true
    /\ config (g_csi_state w') = config (g_csi_state w)
    /\ enabled (g_csi_state w') = enabled (g_csi_state w)
    /\ trace w' = trace w
    /\ (enabled (g_csi_state w) = false
        \/ initialized (buffer (g_csi_state w)) = false -> w' = w)
    /\ (enabled (g_csi_state w) = true ->
        initialized (buffer (g_csi_state w)) = true ->
        exists frame,
          csi_frame_of_info (target platform_ok) info 1000 = Some frame
          /\ ((csi_buffer_is_full (buffer (g_csi_state w)) = Some true
               /\ queued (buffer (g_csi_state w'))
                  = queued (buffer (g_csi_state w))
               /\ dropped (buffer (g_csi_state w'))
                  = uint32 (dropped (buffer (g_csi_state w)) + 1))
              \/ (csi_buffer_is_full (buffer (g_csi_state w)) = Some false
                  /\ queued (buffer (g_csi_state w'))
                     = queued (buffer (g_csi_state w)) ++ [frame]
                  /\ dropped (buffer (g_csi_state w'))
                     = dropped (buffer (g_csi_state w))))).
Proof.
  intros w info.
  apply (wifi_csi_rx_cb_effect platform_ok info 1000 w); reflexivity.
Defined.

(** ** Reading from Python *)

(** X9.  [wifi.csi.read ()] on a state satisfying the invariant: with nothing
    queued (buffer empty or not initialized) it returns [None] and changes
    nothing; otherwise it returns the dictionary of the oldest queued frame
    and removes exactly that frame.  It never touches the configuration, the
    flag, the drop counter or the outside world. *)
Theorem wifi_csi_read_obj_oldest (junk : csi_frame_t) (w : world) :
  state_ok w = true ->
  exists v w',
    wifi_csi_read_obj junk w = Some (v, w')
    /\ state_ok w' = true
    /\ config (g_csi_state w') = config (g_csi_state w)
    /\ enabled (g_csi_state w') = enabled (g_csi_state w)
    /\ trace w' = trace w
    /\ wifi_csi_dropped w' = wifi_csi_dropped w
    /\ match queued (buffer (g_csi_state w)) with
       | [] => v = mp_const_none /\ w' = w
       | x :: rest =>
           v = mp_dict (dict_of_frame x)
           /\ queued (buffer (g_csi_state w')) = rest
       end.
Proof.
  intros H. pose proof (state_ok_inv w H) as (Hb & Hc).
  unfold wifi_csi_read_obj, wifi_csi_read_frame, wifi_csi_dropped.
  destruct Hb as [Hb|[Hi Hf]].
  - destruct (Z.eq_dec (head (buffer (g_csi_state w)))
                (tail (buffer (g_csi_state w)))) as [He|Hne].
    + rewrite (csi_buffer_read_empty _ junk He), (queued_empty _ Hb He).
      exists mp_const_none. eexists. split; [reflexivity|].
      destruct w as [[b c e] tr]. cbn in *. auto 10.
    + destruct (csi_buffer_read_some _ junk Hb Hne)
        as (x & b' & Hr & Hq & Hb' & E).
      rewrite Hr, Hq. exists (mp_dict (dict_of_frame x)). eexists.
      split; [reflexivity|]. cbn [g_csi_state buffer config enabled trace].
      split; [apply state_ok_intro; cbn; [left; exact Hb'|lia]|].
      rewrite E at 1. cbn [dropped]. auto 10.
  - unfold csi_buffer_read. rewrite Hi. cbn [negb orb].
    rewrite (queued_uninitialized _ Hi).
    exists mp_const_none. eexists. split; [reflexivity|].
    destruct w as [[b c e] tr]. cbn in *. auto 10.
Qed.

Lemma wifi_csi_read_obj_oldest_witness :
  let w := sample_world true in
  exists v w',
    wifi_csi_read_obj zero_frame w = Some (v, w')
    /\ state_ok w' = true
    /\ config (g_csi_state w') = config (g_csi_state w)
    /\ enabled (g_csi_state w') = enabled (g_csi_state w)
    /\ trace w' = trace w
    /\ wifi_csi_dropped w' = wifi_csi_dropped w
    /\ match queued (buffer (g_csi_state w)) with
       | [] => v = mp_const_none /\ w' = w
       | x :: rest =>
           v = mp_dict (dict_of_frame x)
           /\ queued (buffer (g_csi_state w')) = rest
       end.
Proof.
  intros w. apply (wifi_csi_read_obj_oldest zero_frame w). reflexivity.
Defined.

(** ** Every history keeps the invariant *)

Lemma wifi_csi_rx_cb_state_ok p info now w :
  info_ok info = true -> state_ok w = true ->
  exists w', wifi_csi_rx_cb p info now w = Some w' /\ state_ok w' = true.
Proof.
  intros Hinfo H. pose proof (state_ok_inv w H) as (Hb & Hc).
  unfold wifi_csi_rx_cb. cbv zeta.
  destruct (negb (enabled (g_csi_state w))
            || negb (initialized (buffer (g_csi_state w)))) eqn:Hact;
    [eauto|].
  apply orb_false_iff in Hact as [_ Hi]. apply negb_false_iff in Hi.
  destruct Hb as [Hb|[Hi' _]]; [|congruence].
  destruct (csi_frame_of_info_Some (target p) info now Hinfo) as [frame ->].
  destruct (csi_buffer_write_keeps_ok (buffer (g_csi_state w)) frame Hb)
    as (ok & b' & -> & Hb').
  eexists. split; [reflexivity|].
  apply state_ok_intro; cbn; [left; exact Hb' | lia].
Qed.

Lemma wifi_csi_read_obj_state_ok junk w :
  state_ok w = true ->
  exists v w', wifi_csi_read_obj junk w = Some (v, w') /\ state_ok w' = true.
Proof.
  intros H. pose proof (state_ok_inv w H) as (Hb & Hc).
  unfold wifi_csi_read_obj, wifi_csi_read_frame.
  destruct Hb as [Hb|[Hi Hf]].
  - destruct (Z.eq_dec (head (buffer (g_csi_state w)))
                (tail (buffer (g_csi_state w)))) as [He|Hne].
    + rewrite (csi_buffer_read_empty _ junk He). do 2 eexists.
      split; [reflexivity|]. rewrite <- H. apply state_ok_same; reflexivity.
    + destruct (csi_buffer_read_some _ junk Hb Hne)
        as (x & b' & -> & _ & Hb' & _).
      do 2 eexists. split; [reflexivity|].
      apply state_ok_intro; cbn; [left; exact Hb' | lia].
  - unfold csi_buffer_read. rewrite Hi. cbn [negb orb]. do 2 eexists.
    split; [reflexivity|]. rewrite <- H. apply state_ok_same; reflexivity.
Qed.

Lemma step_state_ok p o w :
  state_ok w = true -> op_ok o = true ->
  exists w', step p o w = Some w' /\ state_ok w' = true.
Proof.
  intros H Ho. destruct o as [| | | |kw|junk|info now]; cbn [step].
  - eexists. split; [reflexivity|].
    unfold wifi_csi_init, bind, get_state, ret.
    destruct (initialized (buffer (g_csi_state w))) eqn:Hi; cbn [negb];
      [exact H|].
    pose proof (g_buffer_init_state_ok p w H Hi) as H1.
    destruct (g_buffer_init p _ w) as [ok w1]. exact H1.
  - eexists. split; [reflexivity|]. rewrite wifi_csi_deinit_eq.
    apply g_buffer_deinit_released.
    destruct (enabled (g_csi_state w)); [|exact H].
    rewrite wifi_csi_disable_state_ok. exact H.
  - eexists. split; [reflexivity|]. unfold wifi_csi_enable_py.
    pose proof (wifi_csi_enable_state_ok p w H) as H1.
    destruct (wifi_csi_enable p w) as [r w1]. exact H1.
  - eexists. split; [reflexivity|]. unfold wifi_csi_disable_py.
    pose proof (wifi_csi_disable_state_ok p w) as H1.
    destruct (wifi_csi_disable p w) as [r w1]. cbn [snd] in *. congruence.
  - eexists. split; [reflexivity|]. unfold wifi_csi_config_obj. cbv zeta.
    destruct (Z.ltb_spec (buffer_size (config_of_kwargs kw)) 1) as [Hlo|Hlo];
      cbn [orb snd]; [exact H|].
    destruct (Z.gtb_spec (buffer_size (config_of_kwargs kw)) 1024)
      as [Hhi|Hhi]; cbn [snd]; [exact H|].
    pose proof (wifi_csi_config_state_ok p (config_of_kwargs kw) w H) as H1.
    destruct (wifi_csi_config p _ w) as [r w1]. cbn [snd] in *.
    apply H1. lia.
  - destruct (wifi_csi_read_obj_state_ok junk w H) as (v & w' & Hr & H').
    rewrite Hr. exists w'. auto.
  - cbn in Ho.
    destruct (wifi_csi_rx_cb_state_ok p info now w Ho H) as (w' & Hr & H').
    exists w'. auto.
Qed.

(** X10.  Whatever the network module, the Python program and the driver do, and
    whatever the heap and the driver answer: starting from a state that
    satisfies the module invariant (the state at load does), every history
    of [init], [deinit], [enable ()], [disable ()], [config (...)],
    [read ()] and callbacks runs without undefined behaviour and ends in a
    state satisfying the invariant.  In particular an initialized buffer
    always owns exactly [size] slots with [size >= 1] and both indices inside
    it, and the stored [buffer_size] always lies in 1..1024. *)
Theorem run_keeps_state_ok (p : platform) (ops : list op) (w : world) :
  state_ok w = true ->
  forallb op_ok ops = true ->
  exists w', run p ops w = Some w' /\ state_ok w' = true.
Proof.
  revert w. induction ops as [|o ops IH]; intros w H Hops; cbn [run].
  - eauto.
  - cbn [forallb] in Hops. apply andb_true_iff in Hops as [Ho Hops].
    destruct (step_state_ok p o w H Ho) as (w1 & -> & H1).
    apply IH; assumption.
Qed.

Lemma run_keeps_state_ok_witness :
  let ops := [Op_init; Op_enable; Op_rx_cb (sample_info 300 7) 1000;
              Op_config (mk_kwargs None None None None None None (Some 19)
                           (Some 2));
              Op_rx_cb (sample_info 64 1) 2000;
              Op_rx_cb (sample_info 64 2) 3000;
              Op_read zero_frame; Op_disable; Op_deinit;
              Op_rx_cb (sample_info 64 3) 4000; Op_read zero_frame] in
  state_ok world_initial = true
  /\ exists w', run platform_stop_fails ops world_initial = Some w'
                /\ state_ok w' = true.
Proof.
  intros ops. split; [reflexivity|].
  apply (run_keeps_state_ok platform_stop_fails ops world_initial);
    reflexivity.
Defined.

(** ** Lifecycle hooks *)

(** X11.  [wifi_csi_deinit] on a state satisfying the invariant: the buffer ends
    uninitialized and without storage, the configuration is kept, and from
    then on callbacks are ignored and [read ()] returns [None].  The driver
    is asked to stop exactly when the controller was Enabled, and its answer
    is not looked at: if the stop fails the flag stays set although the
    buffer is gone, and a later [wifi_csi_enable] then returns [ESP_OK]
    without allocating anything. *)
Theorem wifi_csi_deinit_releases
    (p : platform) (w : world) (info : wifi_csi_info_t) (now : Z)
    (junk : csi_frame_t) :
  state_ok w = true ->
  let w' := snd (wifi_csi_deinit p w) in
  initialized (buffer (g_csi_state w')) = false
  /\ frames (buffer (g_csi_state w')) = None
  /\ config (g_csi_state w') = config (g_csi_state w)
  /\ enabled (g_csi_state w')
     = enabled (g_csi_state w)
       && negb (esp_ok (driver_ret p (trace w) (Esp_wifi_set_csi false)))
  /\ wifi_csi_rx_cb p info now w' = Some w'
  /\ wifi_csi_read_obj junk w' = Some (mp_const_none, w')
  /\ wifi_csi_available w' = 0
  /\ (enabled (g_csi_state w') = true -> wifi_csi_enable p w' = (ESP_OK, w')).
Proof.
  intros H. cbv zeta. rewrite wifi_csi_deinit_eq.
  set (w1 := if enabled (g_csi_state w) then snd (wifi_csi_disable p w) else w).
  assert (state_ok w1 = true) as H1.
  { subst w1. destruct (enabled (g_csi_state w)); [|exact H].
    rewrite wifi_csi_disable_state_ok. exact H. }
  assert (config (g_csi_state w1) = config (g_csi_state w)
          /\ enabled (g_csi_state w1)
             = enabled (g_csi_state w)
               && negb (esp_ok (driver_ret p (trace w) (Esp_wifi_set_csi false))))
    as [Hc1 He1].
  { subst w1. rewrite wifi_csi_disable_eq.
    destruct (enabled (g_csi_state w)) eqn:En; [|rewrite En; auto].
    cbv zeta. destruct (esp_ok _); cbn; rewrite ?En; auto. }
  destruct (g_buffer_deinit_released w1 H1) as (Hi & Hf & Hc & He & _).
  set (w' := snd (g_buffer_deinit w1)) in *.
  split; [exact Hi|]. split; [exact Hf|]. split; [congruence|].
  split; [congruence|]. split; [|split; [|split]].
  - unfold wifi_csi_rx_cb. cbv zeta. rewrite Hi, orb_true_r. reflexivity.
  - unfold wifi_csi_read_obj, wifi_csi_read_frame, csi_buffer_read.
    rewrite Hi. cbn. destruct w' as [[b c e] tr]. reflexivity.
  - unfold wifi_csi_available, csi_buffer_available. rewrite Hi. reflexivity.
  - intros E. rewrite wifi_csi_enable_eq, E. reflexivity.
Qed.

Lemma wifi_csi_deinit_releases_witness :
  let w := sample_world true in
  let w' := snd (wifi_csi_deinit platform_stop_fails w) in
  enabled (g_csi_state w') = true
  /\ initialized (buffer (g_csi_state w')) = false
  /\ frames (buffer (g_csi_state w')) = None
  /\ config (g_csi_state w') = config (g_csi_state w)
  /\ enabled (g_csi_state w')
     = enabled (g_csi_state w)
       && negb (esp_ok (driver_ret platform_stop_fails (trace w)
                          (Esp_wifi_set_csi false)))
  /\ wifi_csi_rx_cb platform_stop_fails (sample_info 64 1) 1000 w' = Some w'
  /\ wifi_csi_read_obj zero_frame w' = Some (mp_const_none, w')
  /\ wifi_csi_available w' = 0
  /\ (enabled (g_csi_state w') = true ->
      wifi_csi_enable platform_stop_fails w' = (ESP_OK, w')).
Proof.
  intros w. split; [reflexivity|].
  apply (wifi_csi_deinit_releases platform_stop_fails w (sample_info 64 1)
           1000 zero_frame).
  reflexivity.
Defined.

(** X12.  [wifi_csi_init] is a no-op on an initialized buffer, whose queued frames
    it therefore keeps.  On an uninitialized one it makes a single [malloc]
    for [buffer_size] frames and no driver call; if that succeeds the buffer
    is empty with [buffer_size] slots, if it fails the module state is as
    before.  The flag and the configuration are never touched. *)
Theorem wifi_csi_init_effect (p : platform) (w : world) :
  state_ok w = true ->
  let w' := snd (wifi_csi_init p w) in
  let n := sizeof_csi_frame_t * buffer_size (config (g_csi_state w)) in
  config (g_csi_state w') = config (g_csi_state w)
  /\ enabled (g_csi_state w') = enabled (g_csi_state w)
  /\ (initialized (buffer (g_csi_state w)) = true -> w' = w)
  /\ (initialized (buffer (g_csi_state w)) = false ->
      trace w' = trace w ++ [Malloc n]
      /\ (malloc_ret p (trace w) n = None ->
          g_csi_state w' = g_csi_state w)
      /\ (forall junk,
            malloc_ret p (trace w) n = Some junk ->
            buffer (g_csi_state w')
            = mk_buffer (Some (fresh_block junk n)) 0 0
                (buffer_size (config (g_csi_state w))) 0 true
            /\ Z.of_nat (length (fresh_block junk n))
               = buffer_size (config (g_csi_state w))
            /\ wifi_csi_available w' = 0)).
Proof.
  intros H. pose proof (state_ok_inv w H) as (Hb & Hc). cbv zeta.
  unfold wifi_csi_init, bind, get_state, ret.
  destruct (initialized (buffer (g_csi_state w))) eqn:Hi; cbn [negb].
  { repeat split; auto; discriminate. }
  destruct Hb as [Hb|[_ Hf]].
  { apply buffer_ok_inv in Hb as (Hi' & _). congruence. }
  rewrite g_buffer_init_eq. cbv zeta. unfold release_old. rewrite Hi.
  rewrite (uint32_small (sizeof_csi_frame_t * _))
    by (unfold sizeof_csi_frame_t, UINT32_MAX; lia).
  destruct (malloc_ret p (trace w) _) as [junk|];
    cbn [g_csi_state config enabled trace buffer].
  - split; [reflexivity|]. split; [reflexivity|]. split; [discriminate|].
    intros _. split; [reflexivity|]. split; [discriminate|].
    intros junk' [= <-]. split; [reflexivity|].
    split; [apply fresh_block_length; lia | reflexivity].
  - split; [reflexivity|]. split; [reflexivity|]. split; [discriminate|].
    intros _. split; [reflexivity|]. split; [|discriminate].
    intros _. destruct w as [[b c e] tr]. destruct b. cbn in *. subst.
    reflexivity.
Qed.

Lemma wifi_csi_init_effect_witness :
  let w := world_initial in
  let w' := snd (wifi_csi_init platform_ok w) in
  let n := sizeof_csi_frame_t * buffer_size (config (g_csi_state w)) in
  config (g_csi_state w') = config (g_csi_state w)
  /\ enabled (g_csi_state w') = enabled (g_csi_state w)
  /\ (initialized (buffer (g_csi_state w)) = true -> w' = w)
  /\ (initialized (buffer (g_csi_state w)) = false ->
      trace w' = trace w ++ [Malloc n]
      /\ (malloc_ret platform_ok (trace w) n = None ->
          g_csi_state w' = g_csi_state w)
      /\ (forall junk,
            malloc_ret platform_ok (trace w) n = Some junk ->
            buffer (g_csi_state w')
            = mk_buffer (Some (fresh_block junk n)) 0 0
                (buffer_size (config (g_csi_state w))) 0 true
            /\ Z.of_nat (length (fresh_block junk n))
               = buffer_size (config (g_csi_state w))
            /\ wifi_csi_available w' = 0)).
Proof.
  intros w. apply (wifi_csi_init_effect platform_ok w). reflexivity.
Defined.

(** ** The configuration binding *)

(** X13.  [wifi.csi.config] rejects every [buffer_size] outside 1..1024, zero and
    negative values included (a negative [mp_int_t] becomes a huge
    [uint32_t]), by raising [ValueError] before anything is stored: the
    module state is untouched and no call is made. *)
Theorem wifi_csi_config_obj_rejects
    (p : platform) (kw : csi_kwargs) (w : world) :
  let n := default CSI_DEFAULT_BUFFER_SIZE (kw_buffer_size kw) in
  - 2 ^ 31 <= n < 2 ^ 31 ->
  ~ (1 <= n <= 1024) ->
  wifi_csi_config_obj p kw w = (Py_ValueError, w).
Proof.
  cbv zeta. intros Hr Hn. unfold wifi_csi_config_obj. cbv zeta.
  cbn [config_of_kwargs buffer_size].
  set (n := default CSI_DEFAULT_BUFFER_SIZE (kw_buffer_size kw)) in *.
  assert (uint32 n < 1 \/ uint32 n > 1024) as Hu.
  { unfold uint32. destruct (Z_lt_le_dec n 0) as [Hneg|Hpos].
    - right. rewrite <- (Z.mod_add n 1 (2 ^ 32)) by lia.
      rewrite Z.mod_small by lia. lia.
    - rewrite Z.mod_small by lia. lia. }
  destruct (Z.ltb_spec (uint32 n) 1); [reflexivity|].
  destruct (Z.gtb_spec (uint32 n) 1024); [reflexivity|]. lia.
Qed.

Lemma wifi_csi_config_obj_rejects_witness :
  let kw := mk_kwargs None None None None None None None (Some (-5)) in
  wifi_csi_config_obj platform_ok kw (sample_world true)
  = (Py_ValueError, sample_world true).
Proof.
  intros kw.
  apply (wifi_csi_config_obj_rejects platform_ok kw (sample_world true));
    cbn; lia.
Defined.

(** X14.  With a [buffer_size] in 1..1024, [wifi.csi.config] never raises
    [ValueError], and whether it returns or raises [OSError] the stored
    configuration afterwards is built from the keyword arguments alone: an
    option that was not passed is reset to the default of the argument table
    (not kept from the previous configuration), [shift] is reduced to its
    low four bits (0..15) rather than rejected, and [buffer_size] is stored
    as given.  [OSError] carries the code of [wifi_csi_config] verbatim. *)
Theorem wifi_csi_config_obj_stores
    (p : platform) (kw : csi_kwargs) (w : world)
    (res : py_result) (w' : world) :
  let n := default CSI_DEFAULT_BUFFER_SIZE (kw_buffer_size kw) in
  1 <= n <= 1024 ->
  wifi_csi_config_obj p kw w = (res, w') ->
  let c := config (g_csi_state w') in
  res <> Py_ValueError
  /\ (res = Py_return mp_const_none
      \/ exists code, res = Py_OSError code /\ code <> ESP_OK
                      /\ code = fst (wifi_csi_config p (Some c) w))
  /\ c = config_of_kwargs kw
  /\ buffer_size c = n
  /\ shift c = default 0 (kw_shift kw) mod 16
  /\ 0 <= shift c <= 15
  /\ lltf_en c = default true (kw_lltf_en kw)
  /\ htltf_en c = default true (kw_htltf_en kw)
  /\ stbc_htltf2_en c = default true (kw_stbc_htltf2_en kw)
  /\ ltf_merge_en c = default true (kw_ltf_merge_en kw)
  /\ channel_filter_en c = default true (kw_channel_filter_en kw)
  /\ manu_scale c = default false (kw_manu_scale kw).
Proof.
  cbv zeta. intros Hn. unfold wifi_csi_config_obj. cbv zeta.
  assert (buffer_size (config_of_kwargs kw)
          = default CSI_DEFAULT_BUFFER_SIZE (kw_buffer_size kw)) as Ebs
    by (cbn; unfold uint32; apply Z.mod_small; lia).
  rewrite Ebs.
  destruct (Z.ltb_spec (default CSI_DEFAULT_BUFFER_SIZE (kw_buffer_size kw)) 1);
    [lia|].
  destruct (Z.gtb_spec (default CSI_DEFAULT_BUFFER_SIZE (kw_buffer_size kw))
              1024); [lia|].
  cbn [orb].
  pose proof (wifi_csi_config_extends p (config_of_kwargs kw) w) as (Hc & _).
  destruct (wifi_csi_config p (Some (config_of_kwargs kw)) w) as [r w1] eqn:E.
  cbn [snd g_csi_state config] in Hc.
  intros [= <- <-]. rewrite Hc.
  split; [destruct (esp_ok r); discriminate|].
  split.
  { destruct (esp_ok r) eqn:Er; [left; reflexivity|right].
    exists r. rewrite E. apply esp_ok_false in Er. auto. }
  split; [reflexivity|]. split; [exact Ebs|].
  assert (Z.land (default 0 (kw_shift kw)) 15 = default 0 (kw_shift kw) mod 16)
    as El by (apply (Z.land_ones _ 4); lia).
  cbn [config_of_kwargs shift lltf_en htltf_en stbc_htltf2_en ltf_merge_en
         channel_filter_en manu_scale].
  rewrite El. split; [reflexivity|].
  split; [pose proof (Z.mod_pos_bound (default 0 (kw_shift kw)) 16); lia|].
  repeat split.
Qed.

Lemma wifi_csi_config_obj_stores_witness :
  let kw := mk_kwargs None (Some false) None None None None (Some 19)
              (Some 8) in
  let w := sample_world true in
  let res := fst (wifi_csi_config_obj platform_no_mem kw w) in
  let w' := snd (wifi_csi_config_obj platform_no_mem kw w) in
  let n := default CSI_DEFAULT_BUFFER_SIZE (kw_buffer_size kw) in
  let c := config (g_csi_state w') in
  res = Py_OSError ESP_ERR_NO_MEM
  /\ shift c = 3
  /\ res <> Py_ValueError
  /\ (res = Py_return mp_const_none
      \/ exists code, res = Py_OSError code /\ code <> ESP_OK
                      /\ code = fst (wifi_csi_config platform_no_mem (Some c) w))
  /\ c = config_of_kwargs kw
  /\ buffer_size c = n
  /\ shift c = default 0 (kw_shift kw) mod 16
  /\ 0 <= shift c <= 15
  /\ lltf_en c = default true (kw_lltf_en kw)
  /\ htltf_en c = default true (kw_htltf_en kw)
  /\ stbc_htltf2_en c = default true (kw_stbc_htltf2_en kw)
  /\ ltf_merge_en c = default true (kw_ltf_merge_en kw)
  /\ channel_filter_en c = default true (kw_channel_filter_en kw)
  /\ manu_scale c = default false (kw_manu_scale kw).
Proof.
  intros kw w res w'. cbv zeta.
  split; [reflexivity|]. split; [reflexivity|].
  apply (wifi_csi_config_obj_stores platform_no_mem kw w res w');
    [cbn; lia | reflexivity].
Defined.

(** ** Successful transitions *)

Lemma enable_driver_sequence_ok p w :
  drop 2 (answers p (trace w) (enable_calls p (config (g_csi_state w))))
  = replicate 4 ESP_OK ->
  enable_driver_sequence p w
  = (ESP_OK,
     mk_world
       (mk_state (buffer (g_csi_state w)) (config (g_csi_state w)) true)
       (trace w ++ enable_calls p (config (g_csi_state w)))).
Proof.
  cbn. intros [= H1 H2 H3 H4].
  unfold enable_driver_sequence, bind, get_state, esp_wifi, set_enabled, ret.
  cbn. unfold esp_ok. rewrite H1. cbn. rewrite H2. cbn. rewrite H3. cbn.
  rewrite H4. cbn. rewrite <- !app_assoc. reflexivity.
Qed.

(** X15.  The first [wifi_csi_enable] after load (or after a deinit): if the
    allocation succeeds and the promiscuous-mode, configuration, callback
    and capture-start calls answer [ESP_OK], the call returns [ESP_OK] with
    the flag set and an empty buffer of [buffer_size] slots, having made the
    [malloc] and then the six driver calls in their fixed order.  What the
    protocol and bandwidth calls answer does not matter. *)
Theorem wifi_csi_enable_first_time
    (p : platform) (w : world) (junk : nat -> csi_frame_t) :
  state_ok w = true ->
  enabled (g_csi_state w) = false ->
  initialized (buffer (g_csi_state w)) = false ->
  let c := config (g_csi_state w) in
  let n := sizeof_csi_frame_t * buffer_size c in
  malloc_ret p (trace w) n = Some junk ->
  drop 2 (answers p (trace w ++ [Malloc n]) (enable_calls p c))
  = replicate 4 ESP_OK ->
  wifi_csi_enable p w
  = (ESP_OK,
     mk_world
       (mk_state (mk_buffer (Some (fresh_block junk n)) 0 0 (buffer_size c) 0 true)
          c true)
       (trace w ++ Malloc n :: enable_calls p c))
  /\ buffer_ok (mk_buffer (Some (fresh_block junk n)) 0 0 (buffer_size c) 0 true)
     = true.
Proof.
  intros H En Hi c n Hm Hans. pose proof (state_ok_inv w H) as (_ & Hc).
  assert (uint32 n = n) as En32
    by (apply uint32_small; subst n c;
        unfold sizeof_csi_frame_t, UINT32_MAX; lia).
  split.
  - rewrite wifi_csi_enable_eq, En, Hi, g_buffer_init_eq. cbv zeta.
    unfold release_old. rewrite Hi. fold c. fold n. rewrite En32, Hm.
    rewrite enable_driver_sequence_ok;
      cbn [g_csi_state buffer config enabled trace]; [|exact Hans].
    rewrite <- app_assoc. reflexivity.
  - apply fresh_buffer_ok; subst c;
      unfold sizeof_csi_frame_t, UINT32_MAX; lia.
Qed.

Lemma wifi_csi_enable_first_time_witness :
  let w := world_initial in
  let c := config (g_csi_state w) in
  let n := sizeof_csi_frame_t * buffer_size c in
  let junk := fun _ : nat => zero_frame in
  wifi_csi_enable platform_ok w
  = (ESP_OK,
     mk_world
       (mk_state (mk_buffer (Some (fresh_block junk n)) 0 0 (buffer_size c) 0 true)
          c true)
       (trace w ++ Malloc n :: enable_calls platform_ok c))
  /\ buffer_ok (mk_buffer (Some (fresh_block junk n)) 0 0 (buffer_size c) 0 true)
     = true.
Proof.
  intros w c n junk.
  apply (wifi_csi_enable_first_time platform_ok w junk); reflexivity.
Defined.

(** X16.  A resize is destructive and ordered.  [wifi_csi_config] with a changed
    [buffer_size] on an Enabled controller, when the driver and the heap
    cooperate: capture is stopped first, then the old block is freed, then
    the new one allocated, then the whole enable sequence is run with the new
    options.  The call returns [ESP_OK] with the flag set again; the frames
    that were queued are gone and the drop counter is back at zero. *)
Theorem wifi_csi_config_resize_enabled
    (p : platform) (c : csi_config_t) (w : world)
    (fs : list csi_frame_t) (junk : nat -> csi_frame_t) :
  enabled (g_csi_state w) = true ->
  initialized (buffer (g_csi_state w)) = true ->
  frames (buffer (g_csi_state w)) = Some fs ->
  buffer_size c <> size (buffer (g_csi_state w)) ->
  1 <= buffer_size c <= 1024 ->
  let n := sizeof_csi_frame_t * buffer_size c in
  let swap := [Esp_wifi_set_csi false; Free; Malloc n] in
  driver_ret p (trace w) (Esp_wifi_set_csi false) = ESP_OK ->
  malloc_ret p (trace w ++ [Esp_wifi_set_csi false; Free]) n = Some junk ->
  drop 2 (answers p (trace w ++ swap) (enable_calls p c))
  = replicate 4 ESP_OK ->
  let w' :=
    mk_world
      (mk_state (mk_buffer (Some (fresh_block junk n)) 0 0 (buffer_size c) 0 true)
         c true)
      (trace w ++ swap ++ enable_calls p c) in
  wifi_csi_config p (Some c) w = (ESP_OK, w')
  /\ queued (buffer (g_csi_state w')) = []
  /\ wifi_csi_dropped w' = 0
  /\ wifi_csi_available w' = 0
  /\ state_ok w' = true.
Proof.
  intros En Hi Hf Hs Hc n swap Hstop Hm Hans w'.
  assert (uint32 n = n) as En32
    by (apply uint32_small; subst n;
        unfold sizeof_csi_frame_t, UINT32_MAX; lia).
  split; [|split; [reflexivity|split; [reflexivity|split; [reflexivity|]]]].
  - rewrite wifi_csi_config_eq. cbv zeta.
    apply Z.eqb_neq in Hs. rewrite Hs, En. cbn [negb].
    rewrite wifi_csi_disable_eq. cbn [g_csi_state enabled trace buffer config].
    cbv zeta. apply esp_ok_true in Hstop. rewrite Hstop. cbn [snd].
    rewrite g_buffer_deinit_eq. cbn [g_csi_state enabled trace buffer config].
    cbv zeta. rewrite Hi, Hf. cbn [snd].
    rewrite g_buffer_init_eq. cbn [g_csi_state enabled trace buffer config].
    cbv zeta. unfold release_old. cbn [initialized].
    fold n. rewrite En32. rewrite <- app_assoc. cbn [app]. rewrite Hm.
    rewrite wifi_csi_enable_eq. cbn [g_csi_state enabled buffer initialized].
    rewrite enable_driver_sequence_ok;
      cbn [g_csi_state buffer config enabled trace].
    + subst w' swap. rewrite <- !app_assoc. reflexivity.
    + rewrite <- app_assoc. exact Hans.
  - subst w'. apply state_ok_intro; cbn [g_csi_state buffer config]; [left|lia].
    subst n. apply fresh_buffer_ok; unfold sizeof_csi_frame_t, UINT32_MAX; lia.
Qed.

Lemma wifi_csi_config_resize_enabled_witness :
  let w := sample_world true in
  let c := sample_config false 8 in
  let junk := fun _ : nat => zero_frame in
  let n := sizeof_csi_frame_t * buffer_size c in
  let swap := [Esp_wifi_set_csi false; Free; Malloc n] in
  let w' :=
    mk_world
      (mk_state (mk_buffer (Some (fresh_block junk n)) 0 0 (buffer_size c) 0 true)
         c true)
      (trace w ++ swap ++ enable_calls platform_ok c) in
  queued (buffer (g_csi_state w)) = [sample_frame 1; sample_frame 2]
  /\ wifi_csi_config platform_ok (Some c) w = (ESP_OK, w')
  /\ queued (buffer (g_csi_state w')) = []
  /\ wifi_csi_dropped w' = 0
  /\ wifi_csi_available w' = 0
  /\ state_ok w' = true.
Proof.
  intros w c junk. cbv zeta. split; [reflexivity|].
  apply (wifi_csi_config_resize_enabled platform_ok c w
           [sample_frame 1; sample_frame 2; zero_frame; zero_frame] junk);
    try reflexivity; try discriminate; cbn; lia.
Defined.

(** X17.  On a Disabled controller a resize stays off the driver: the old block is
    freed, the new one allocated, nothing else is called, and the controller
    stays Disabled with an empty buffer of the new size. *)
Theorem wifi_csi_config_resize_disabled
    (p : platform) (c : csi_config_t) (w : world)
    (fs : list csi_frame_t) (junk : nat -> csi_frame_t) :
  enabled (g_csi_state w) = false ->
  initialized (buffer (g_csi_state w)) = true ->
  frames (buffer (g_csi_state w)) = Some fs ->
  buffer_size c <> size (buffer (g_csi_state w)) ->
  1 <= buffer_size c <= 1024 ->
  let n := sizeof_csi_frame_t * buffer_size c in
  malloc_ret p (trace w ++ [Free]) n = Some junk ->
  let w' :=
    mk_world
      (mk_state (mk_buffer (Some (fresh_block junk n)) 0 0 (buffer_size c) 0 true)
         c false)
      (trace w ++ [Free; Malloc n]) in
  wifi_csi_config p (Some c) w = (ESP_OK, w')
  /\ queued (buffer (g_csi_state w')) = []
  /\ wifi_csi_dropped w' = 0
  /\ state_ok w' = true.
Proof.
  intros En Hi Hf Hs Hc n Hm w'.
  assert (uint32 n = n) as En32
    by (apply uint32_small; subst n;
        unfold sizeof_csi_frame_t, UINT32_MAX; lia).
  split; [|split; [reflexivity|split; [reflexivity|]]].
  - rewrite wifi_csi_config_eq. cbv zeta.
    apply Z.eqb_neq in Hs. rewrite Hs, En. cbn [negb].
    rewrite g_buffer_deinit_eq. cbn [g_csi_state enabled trace buffer config].
    cbv zeta. rewrite Hi, Hf. cbn [snd].
    rewrite g_buffer_init_eq. cbn [g_csi_state enabled trace buffer config].
    cbv zeta. unfold release_old. cbn [initialized].
    fold n. rewrite En32, Hm. subst w'. rewrite <- app_assoc. reflexivity.
  - subst w'. apply state_ok_intro; cbn [g_csi_state buffer config]; [left|lia].
    subst n. apply fresh_buffer_ok; unfold sizeof_csi_frame_t, UINT32_MAX; lia.
Qed.

Lemma wifi_csi_config_resize_disabled_witness :
  let w := sample_world false in
  let c := sample_config true 2 in
  let junk := fun _ : nat => zero_frame in
  let n := sizeof_csi_frame_t * buffer_size c in
  let w' :=
    mk_world
      (mk_state (mk_buffer (Some (fresh_block junk n)) 0 0 (buffer_size c) 0 true)
         c false)
      (trace w ++ [Free; Malloc n]) in
  wifi_csi_config platform_ok (Some c) w = (ESP_OK, w')
  /\ queued (buffer (g_csi_state w')) = []
  /\ wifi_csi_dropped w' = 0
  /\ state_ok w' = true.
Proof.
  intros w c junk. cbv zeta.
  apply (wifi_csi_config_resize_disabled platform_ok c w
           [sample_frame 1; sample_frame 2; zero_frame; zero_frame] junk);
    try reflexivity; try discriminate; cbn; lia.
Defined.

(** ** From the driver to Python *)

(** X18.  A frame goes through unchanged: on an Enabled controller whose buffer is
    empty and has at least two slots, one callback makes one frame available,
    and the next [read ()] returns the dictionary of exactly the frame built
    from the driver's report, with its 21 entries, and leaves the buffer
    empty again; a further [read ()] returns [None]. *)
Theorem rx_cb_then_read_roundtrip
    (p : platform) (info : wifi_csi_info_t) (now : Z) (junk : csi_frame_t)
    (w : world) :
  info_ok info = true ->
  state_ok w = true ->
  enabled (g_csi_state w) = true ->
  initialized (buffer (g_csi_state w)) = true ->
  wifi_csi_available w = 0 ->
  2 <= size (buffer (g_csi_state w)) ->
  exists frame w1 w2,
    csi_frame_of_info (target p) info now = Some frame
    /\ wifi_csi_rx_cb p info now w = Some w1
    /\ wifi_csi_available w1 = 1
    /\ wifi_csi_dropped w1 = wifi_csi_dropped w
    /\ wifi_csi_read_obj junk w1 = Some (mp_dict (dict_of_frame frame), w2)
    /\ wifi_csi_available w2 = 0
    /\ wifi_csi_read_obj junk w2 = Some (mp_const_none, w2)
    /\ length (dict_of_frame frame) = 21%nat
    /\ dict_get (dict_of_frame frame) MP_QSTR_mac
       = Some (mp_bytes (take 6 (mac frame)))
    /\ dict_get (dict_of_frame frame) MP_QSTR_data
       = Some (mp_bytearray_by_ref 98 (len frame) (data frame))
    /\ dict_get (dict_of_frame frame) MP_QSTR_rssi
       = Some (mp_obj_new_int (rssi frame)).
Proof.
  intros Hinfo H En Hi Hav Hsz.
  pose proof (state_ok_inv w H) as (Hb & Hc).
  destruct Hb as [Hb|[Hi' _]]; [|congruence].
  unfold wifi_csi_available in Hav.
  assert (head (buffer (g_csi_state w)) = tail (buffer (g_csi_state w)))
    as Hemp.
  { apply queued_nil_empty; [exact Hb|].
    pose proof (queued_length _ Hb) as Hl. rewrite Hav in Hl.
    destruct (queued (buffer (g_csi_state w))); [reflexivity|].
    cbn in Hl. lia. }
  assert ((head (buffer (g_csi_state w)) + 1)
            mod size (buffer (g_csi_state w))
          <> tail (buffer (g_csi_state w))) as Hroom.
  { rewrite (queued_full _ Hb), (queued_empty _ Hb Hemp). cbn. lia. }
  destruct (csi_frame_of_info_Some (target p) info now Hinfo) as [frame Hfr].
  destruct (csi_buffer_write_room _ frame Hb Hroom)
    as (b1 & Hw & Hb1 & Hq1 & Hd1 & _).
  rewrite (queued_empty _ Hb Hemp) in Hq1. cbn [app] in Hq1.
  assert (head b1 <> tail b1) as Hne1.
  { intros E. rewrite (queued_empty b1 Hb1 E) in Hq1. discriminate. }
  destruct (csi_buffer_read_some b1 junk Hb1 Hne1)
    as (x & b2 & Hr & Hq & Hb2 & _).
  rewrite Hq1 in Hq. injection Hq as <- Hq2.
  symmetry in Hq2.
  pose proof (queued_nil_empty b2 Hb2 Hq2) as Hemp2.
  exists frame.
  exists (mk_world (mk_state b1 (config (g_csi_state w)) (enabled (g_csi_state w)))
            (trace w)).
  exists (mk_world (mk_state b2 (config (g_csi_state w)) (enabled (g_csi_state w)))
            (trace w)).
  split; [exact Hfr|]. split.
  { unfold wifi_csi_rx_cb. cbv zeta. rewrite En, Hi. cbn [negb orb].
    rewrite Hfr, Hw. reflexivity. }
  unfold wifi_csi_available, wifi_csi_dropped, wifi_csi_read_obj,
    wifi_csi_read_frame.
  cbn [g_csi_state buffer config enabled trace].
  split; [apply available_of_queued; [exact Hb1 | rewrite Hq1; reflexivity]|].
  split; [exact Hd1|]. split; [rewrite Hr; reflexivity|].
  split; [apply available_of_queued; [exact Hb2 | rewrite Hq2; reflexivity]|].
  split; [rewrite (csi_buffer_read_empty b2 junk Hemp2); reflexivity|].
  repeat split.
Qed.

Lemma rx_cb_then_read_roundtrip_witness :
  let w := snd (wifi_csi_enable platform_ok world_initial) in
  let info := sample_info 300 7 in
  exists frame w1 w2,
    csi_frame_of_info (target platform_ok) info 1000 = Some frame
    /\ wifi_csi_rx_cb platform_ok info 1000 w = Some w1
    /\ wifi_csi_available w1 = 1
    /\ wifi_csi_dropped w1 = wifi_csi_dropped w
    /\ wifi_csi_read_obj zero_frame w1
       = Some (mp_dict (dict_of_frame frame), w2)
    /\ wifi_csi_available w2 = 0
    /\ wifi_csi_read_obj zero_frame w2 = Some (mp_const_none, w2)
    /\ length (dict_of_frame frame) = 21%nat
    /\ dict_get (dict_of_frame frame) MP_QSTR_mac
       = Some (mp_bytes (take 6 (mac frame)))
    /\ dict_get (dict_of_frame frame) MP_QSTR_data
       = Some (mp_bytearray_by_ref 98 (len frame) (data frame))
    /\ dict_get (dict_of_frame frame) MP_QSTR_rssi
       = Some (mp_obj_new_int (rssi frame)).
Proof.
  intros w info.
  apply (rx_cb_then_read_roundtrip platform_ok info 1000 zero_frame w);
    try reflexivity. vm_compute. discriminate.
Defined.

Lemma int32_uint32 z : int32 (uint32 z) = int32 z.
Proof.
  unfold int32, uint32. f_equal.
  rewrite Z.add_mod_idemp_l by lia. reflexivity.
Qed.

(** X19.  The time stamp Python sees is the timer value reduced to a signed 32-bit
    integer, because the [uint32_t] field goes through [mp_obj_new_int]: it
    is exact while the timer is below [2^31] microseconds and negative
    during the following [2^31] microseconds. *)
Theorem read_timestamp_is_signed
    (t : idf_target) (info : wifi_csi_info_t) (now : Z) (frame : csi_frame_t) :
  csi_frame_of_info t info now = Some frame ->
  dict_get (dict_of_frame frame) MP_QSTR_timestamp = Some (mp_int (int32 now))
  /\ (0 <= now < 2 ^ 31 -> int32 now = now)
  /\ (2 ^ 31 <= now < 2 ^ 32 -> int32 now = now - 2 ^ 32 /\ int32 now < 0).
Proof.
  intros Hfr.
  assert (timestamp_us frame = uint32 now) as Ets.
  { unfold csi_frame_of_info in Hfr.
    destruct (memcpy_bytes _ (info_mac info) 6); [|discriminate].
    destruct (match info_buf info with Some _ => _ | None => _ end);
      [|discriminate].
    injection Hfr as <-. reflexivity. }
  split; [|split].
  - change (dict_get (dict_of_frame frame) MP_QSTR_timestamp)
      with (Some (mp_obj_new_int (timestamp_us frame))).
    unfold mp_obj_new_int. rewrite Ets, int32_uint32. reflexivity.
  - intros Hn. unfold int32. rewrite Z.mod_small by lia. lia.
  - intros Hn. unfold int32.
    rewrite <- (Z.mod_add (now + 2 ^ 31) (-1) (2 ^ 32)) by lia.
    rewrite Z.mod_small by lia. lia.
Qed.

Lemma read_timestamp_is_signed_witness :
  exists frame,
    csi_frame_of_info TARGET_LEGACY (sample_info 64 1) 3000000000 = Some frame
    /\ dict_get (dict_of_frame frame) MP_QSTR_timestamp
       = Some (mp_int (-1294967296))
    /\ dict_get (dict_of_frame frame) MP_QSTR_timestamp
       = Some (mp_int (int32 3000000000))
    /\ (0 <= 3000000000 < 2 ^ 31 -> int32 3000000000 = 3000000000)
    /\ (2 ^ 31 <= 3000000000 < 2 ^ 32 ->
        int32 3000000000 = 3000000000 - 2 ^ 32 /\ int32 3000000000 < 0).
Proof.
  eexists. split; [reflexivity|]. split; [reflexivity|].
  apply (read_timestamp_is_signed TARGET_LEGACY (sample_info 64 1) 3000000000).
  reflexivity.
Defined.
